(** * Karbon rule engine: a shallow embedding of [rules.py] and [app.py]

    The engine is a handful of Python functions over a parsed JSON
    document.  The embedding keeps Python's dynamic typing: a document is
    a finite map from keys to JSON values, every primitive the source
    uses ([in], [x[k]], [len], [.get], [sum], [+], [/], comparisons) is
    a function into an outcome type that is either a value or a raised
    exception, and each engine function is transcribed statement by
    statement over these primitives.

    Numbers.  A JSON integer is a Python int, [Z]; a JSON real is a
    Python float, the kernel's binary64 [float], infinities and NaN
    included.  Arithmetic rounds as IEEE 754 does (to nearest, ties to
    even), an int that meets a float is converted first and raises
    OverflowError when it is beyond the float range, and so does a
    quotient of two ints that is.  [sum] adds from left to right, as
    CPython does up to version 3.11.

    Strings.  A str is held as its UTF-8 encoding; its length and its
    items are counted in code points. *)

From Stdlib Require Import ZArith String List Lia Floats.
From stdpp Require Import base option list gmap strings.

Local Open Scope string_scope.
Local Open Scope Z_scope.

(** ** JSON values as Python sees them after [json.loads] *)

#[warnings="-register-all"]
Inductive value : Type :=
| VNone
| VBool (b : bool)
| VInt (z : Z)
| VFloat (f : float)
| VStr (s : string)
| VList (l : list value)
| VDict (d : gmap string value).
Arguments VFloat f%_float.

(** [data: dict] in the signatures of the source. *)
Abbreviation document := (gmap string value).

(** ** Outcomes: a returned value or a raised exception *)

Inductive exn : Type :=
| TypeError | KeyError | IndexError | AttributeError | ZeroDivisionError
| OverflowError.

Inductive result (A : Type) : Type :=
| Ok (a : A)
| Raise (e : exn).
Arguments Ok {A} a.
Arguments Raise {A} e.

#[global] Instance result_ret : MRet result := fun A a => Ok a.
#[global] Instance result_bind : MBind result := fun A B f m =>
  match m with
  | Ok a => f a
  | Raise e => Raise e
  end.

Definition returns {A} (m : result A) : Prop := ∃ a, m = Ok a.
Definition raises {A} (m : result A) : Prop := ∃ e, m = Raise e.

(** ** class FLAGS *)

Inductive FLAGS : Type := GREEN | AMBER | RED | MEDIUM_RISK | WHITE.

Definition FLAGS_value (f : FLAGS) : Z :=
  match f with
  | GREEN => 1
  | AMBER => 2
  | RED => 0
  | MEDIUM_RISK => 3
  | WHITE => 4
  end.

(** ** The Python primitives the engine uses *)

Module Py.

(** Python's numeric tower restricted to JSON: [bool] is a subclass of
    [int], so [True] counts as 1 in arithmetic and comparisons. *)
Inductive num : Type := NInt (z : Z) | NFloat (f : float).

Definition as_num (v : value) : option num :=
  match v with
  | VBool b => Some (NInt (Z.b2z b))
  | VInt z => Some (NInt z)
  | VFloat f => Some (NFloat f)
  | _ => None
  end.

Definition is_number (v : value) : bool :=
  match as_num v with Some _ => true | None => false end.

(** [float(z)]: the binary64 nearest to [z], ties to even; an infinity
    when [z] rounds beyond the largest float. *)
Definition float_of_int (z : Z) : float :=
  SF2Prim (binary_normalize prec emax z 0 false).

(** An int as an operand of float arithmetic. *)
Definition to_float (n : num) : result float :=
  match n with
  | NInt z =>
      let f := float_of_int z in
      if is_infinity f then Raise OverflowError else Ok f
  | NFloat f => Ok f
  end.

Definition raw_int (z : Z) : spec_float :=
  match z with
  | Z0 => S754_zero false
  | Zpos p => S754_finite false p 0
  | Zneg p => S754_finite true p 0
  end.

(** [a / b] for two ints, [b] not zero: the binary64 nearest to the exact
    quotient, whatever the size of [a] and [b]; an infinity when the
    quotient rounds beyond the largest float. *)
Definition int_quotient (a b : Z) : float :=
  SF2Prim (SFdiv prec emax (raw_int a) (raw_int b)).

(** [a + b] where one operand is a number (both call sites: [sum], which
    starts from the int 0, and [x + 1]).  int + int stays int and is
    exact; otherwise both operands become floats, left one first. *)
Definition add (a b : value) : result value :=
  match as_num a, as_num b with
  | Some (NInt x), Some (NInt y) => Ok (VInt (x + y))
  | Some x, Some y =>
      fx ← to_float x; fy ← to_float y; Ok (VFloat (fx + fy))
  | _, _ => Raise TypeError
  end.

(** [a / b]: true division, always a float.  Operand types are checked
    first; two ints are divided exactly and rounded once; otherwise both
    operands become floats before the divisor is tested. *)
Definition truediv (a b : value) : result value :=
  match as_num a, as_num b with
  | Some (NInt x), Some (NInt y) =>
      if y =? 0 then Raise ZeroDivisionError
      else
        let q := int_quotient x y in
        if is_infinity q then Raise OverflowError else Ok (VFloat q)
  | Some x, Some y =>
      fx ← to_float x; fy ← to_float y;
      if (fy =? 0)%float then Raise ZeroDivisionError
      else Ok (VFloat (fx / fy))
  | _, _ => Raise TypeError
  end.

(** The order of a finite float and an int, compared as real numbers. *)
Definition exact_compare (f : float) (z : Z) : comparison :=
  match Prim2SF f with
  | S754_finite s m e =>
      let v := if s then Z.neg m else Z.pos m in
      if 0 <=? e then (v * 2 ^ e ?= z) else (v ?= z * 2 ^ (- e))
  | _ => (0 ?= z)
  end.

(** A float against an int, as float_richcompare decides it: an infinity
    or a NaN is compared with 0.0, an int of at most 48 bits is converted
    (exactly) and compared as a float, a longer one is compared exactly. *)
Definition float_cmp_int (op : float → float → bool)
  (exact : comparison → bool) (f : float) (z : Z) : bool :=
  if is_finite f then
    if Z.abs z <? 2 ^ 48 then op f (float_of_int z)
    else exact (exact_compare f z)
  else op f 0%float.

Definition not_Lt (c : comparison) : bool :=
  match c with Lt => false | _ => true end.
Definition not_Gt (c : comparison) : bool :=
  match c with Gt => false | _ => true end.
Definition is_Eq (c : comparison) : bool :=
  match c with Eq => true | _ => false end.

(** [x >= y] and [x <= y] on numbers; false whenever a NaN is involved. *)
Definition num_ge (x y : num) : bool :=
  match x, y with
  | NInt a, NInt b => b <=? a
  | NFloat f, NInt b => float_cmp_int (λ i j, (j <=? i)%float) not_Lt f b
  | NInt a, NFloat g => float_cmp_int (λ i j, (i <=? j)%float) not_Gt g a
  | NFloat f, NFloat g => (g <=? f)%float
  end.

Definition num_le (x y : num) : bool := num_ge y x.

Definition num_eq (x y : num) : bool :=
  match x, y with
  | NInt a, NInt b => a =? b
  | NFloat f, NInt b => float_cmp_int PrimFloat.eqb is_Eq f b
  | NInt a, NFloat g => float_cmp_int PrimFloat.eqb is_Eq g a
  | NFloat f, NFloat g => (f =? g)%float
  end.

(** [a >= b] and [a <= b] with a numeric constant on the right. *)
Definition ge (a b : value) : result bool :=
  match as_num a, as_num b with
  | Some x, Some y => Ok (num_ge x y)
  | _, _ => Raise TypeError
  end.

Definition le (a b : value) : result bool :=
  match as_num a, as_num b with
  | Some x, Some y => Ok (num_le x y)
  | _, _ => Raise TypeError
  end.

(** [v == z] for an int constant [z]; equality never raises, and a
    non-number is unequal to every number. *)
Definition eq_int (v : value) (z : Z) : bool :=
  match as_num v with
  | Some x => num_eq x (NInt z)
  | None => false
  end.

(** [v == s] for a string constant [s]. *)
Definition eq_str (v : value) (s : string) : bool :=
  match v with
  | VStr t => bool_decide (t = s)
  | _ => false
  end.

Definition is_substring (s t : string) : bool :=
  match String.index 0 s t with Some _ => true | None => false end.

(** A byte 10xxxxxx continues the code point of the byte before it. *)
Definition is_continuation (c : Ascii.ascii) : bool :=
  let n := Ascii.N_of_ascii c in ((128 <=? n) && (n <? 192))%N.

(** The code points of a str, each as a str of its own. *)
Definition continues (s : string) : bool :=
  match s with
  | String c _ => is_continuation c
  | EmptyString => false
  end.

Fixpoint code_points (s : string) : list string :=
  match s with
  | EmptyString => []
  | String c r =>
      match code_points r with
      | p :: ps =>
          if continues r then String c p :: ps
          else String c EmptyString :: p :: ps
      | [] => [String c EmptyString]
      end
  end.

(** [len(v)]; a str is its sequence of code points. *)
Definition len (v : value) : result Z :=
  match v with
  | VStr s => Ok (Z.of_nat (length (code_points s)))
  | VList l => Ok (Z.of_nat (length l))
  | VDict d => Ok (Z.of_nat (size d))
  | _ => Raise TypeError
  end.

(** [k in v] for a string constant [k]: key test on a dict, element test
    on a list, substring test on a str. *)
Definition contains (k : string) (v : value) : result bool :=
  match v with
  | VDict d => Ok (bool_decide (is_Some (d !! k)))
  | VList l => Ok (existsb (fun x => eq_str x k) l)
  | VStr s => Ok (is_substring k s)
  | _ => Raise TypeError
  end.

(** [v[k]] for a string constant [k]. *)
Definition getitem_str (v : value) (k : string) : result value :=
  match v with
  | VDict d =>
      match d !! k with
      | Some x => Ok x
      | None => Raise KeyError
      end
  | _ => Raise TypeError
  end.

(** Position selected by a Python sequence index: negative indices count
    from the end. *)
Definition seq_pos (n i : Z) : option nat :=
  let j := if i <? 0 then i + n else i in
  if (0 <=? j) && (j <? n) then Some (Z.to_nat j) else None.

(** [v[i]] for an int [i].  A dict built by [json.loads] has only string
    keys, so an int key is never found. *)
Definition getitem_int (v : value) (i : Z) : result value :=
  match v with
  | VList l =>
      match seq_pos (Z.of_nat (length l)) i with
      | Some k =>
          match l !! k with
          | Some x => Ok x
          | None => Raise IndexError
          end
      | None => Raise IndexError
      end
  | VStr s =>
      match seq_pos (Z.of_nat (length (code_points s))) i with
      | Some k =>
          match code_points s !! k with
          | Some x => Ok (VStr x)
          | None => Raise IndexError
          end
      | None => Raise IndexError
      end
  | VDict _ => Raise KeyError
  | _ => Raise TypeError
  end.

(** [v.get(k, default)]: only dicts have the method. *)
Definition get (v : value) (k : string) (default : value) : result value :=
  match v with
  | VDict d =>
      match d !! k with
      | Some x => Ok x
      | None => Ok default
      end
  | _ => Raise AttributeError
  end.

(** The items a [for] loop, [enumerate] or [sum] draws from [v]: the
    elements of a list, the characters of a str, the keys of a dict. *)
Definition iter (v : value) : result (list value) :=
  match v with
  | VList l => Ok l
  | VStr s => Ok (VStr <$> code_points s)
  | VDict d => Ok (VStr <$> (map_to_list d).*1)
  | _ => Raise TypeError
  end.

Fixpoint sum_from (acc : value) (items : list value) : result value :=
  match items with
  | [] => Ok acc
  | x :: rest => acc' ← add acc x; sum_from acc' rest
  end.

(** [sum(v)], starting from the int 0 and adding from left to right
    (CPython up to 3.11; later versions compensate the rounding of a sum
    of floats). *)
Definition sum (v : value) : result value :=
  items ← iter v; sum_from (VInt 0) items.

(** [isinstance(v, list)] *)
Definition is_list (v : value) : bool :=
  match v with VList _ => true | _ => false end.

End Py.

(** ** rules.py *)

(** The loop of [latest_financial_index]: [index] is the counter of
    [enumerate]. *)
Fixpoint first_standalone (index : Z) (items : list value) : result Z :=
  match items with
  | [] => Ok 0
  | financial :: rest =>
      nature ← Py.get financial "nature" VNone;
      if Py.eq_str nature "STANDALONE" then Ok index
      else first_standalone (index + 1) rest
  end.

Definition latest_financial_index (data : document) : result Z :=
  financials ← Py.get (VDict data) "financials" VNone;
  items ← Py.iter financials;
  first_standalone 0 items.

Definition total_revenue (data : document) (financial_index : Z)
  : result value :=
  in_data ← Py.contains "financials" (VDict data);
  if in_data : bool then
    (* 0 <= financial_index < len(...): the right comparison, and with it
       len, is evaluated only when the left one holds *)
    in_range ←
      (if 0 <=? financial_index then
         financials ← Py.getitem_str (VDict data) "financials";
         n ← Py.len financials;
         Ok (financial_index <? n)
       else Ok false);
    if in_range : bool then
      financials ← Py.getitem_str (VDict data) "financials";
      financial_entry ← Py.getitem_int financials financial_index;
      has_pnl ← Py.contains "pnl" financial_entry;
      has_items ←
        (if has_pnl : bool then
           pnl ← Py.getitem_str financial_entry "pnl";
           Py.contains "lineItems" pnl
         else Ok false);
      if has_items : bool then
        pnl ← Py.getitem_str financial_entry "pnl";
        line_items ← Py.getitem_str pnl "lineItems";
        has_net ← Py.contains "netRevenue" line_items;
        if has_net : bool then Py.getitem_str line_items "netRevenue"
        else Ok VNone
      else Ok VNone
    else Ok VNone
  else Ok VNone.

Definition total_borrowing (data : document) (financial_index : Z)
  : result value :=
  in_data ← Py.contains "bs" (VDict data);
  guard ←
    (if in_data : bool then
       bs ← Py.getitem_str (VDict data) "bs";
       if Py.is_list bs then
         n ← Py.len bs;
         Ok (financial_index <? n)
       else Ok false
     else Ok false);
  if guard : bool then
    bs ← Py.getitem_str (VDict data) "bs";
    entry ← Py.getitem_int bs financial_index;
    long_list ← Py.getitem_str entry "long_term_borrowings";
    long_term_borrowings ← Py.sum long_list;
    bs' ← Py.getitem_str (VDict data) "bs";
    entry' ← Py.getitem_int bs' financial_index;
    short_list ← Py.getitem_str entry' "short_term_borrowings";
    short_term_borrowings ← Py.sum short_list;
    total_rev ← total_revenue data financial_index;
    if negb (Py.eq_int total_rev 0) then
      borrowings ← Py.add long_term_borrowings short_term_borrowings;
      Py.truediv borrowings total_rev
    else Ok VNone
  else Ok (VFloat 0).

Definition iscr (data : document) (financial_index : Z) : result value :=
  profit_before_interest_tax_deprec_list ←
    Py.get (VDict data) "profit_before_interest_tax_deprec" (VList []);
  interest_expenses_list ←
    Py.get (VDict data) "interest_expenses" (VList []);
  in_range ←
    (if 0 <=? financial_index then
       n1 ← Py.len profit_before_interest_tax_deprec_list;
       n2 ← Py.len interest_expenses_list;
       Ok (financial_index <? Z.min n1 n2)
     else Ok false);
  if in_range : bool then
    profit_before_interest_tax_deprec ←
      Py.getitem_int profit_before_interest_tax_deprec_list financial_index;
    interest_expenses ←
      Py.getitem_int interest_expenses_list financial_index;
    numerator ← Py.add profit_before_interest_tax_deprec (VInt 1);
    denominator ← Py.add interest_expenses (VInt 1);
    Py.truediv numerator denominator
  else Ok (VFloat 0).

Definition iscr_flag (data : document) (financial_index : Z)
  : result FLAGS :=
  iscr_value ← iscr data financial_index;
  c ← Py.ge iscr_value (VInt 2);
  if c : bool then Ok GREEN else Ok RED.

Definition total_revenue_5cr_flag (data : document) (financial_index : Z)
  : result FLAGS :=
  total_rev ← total_revenue data financial_index;
  c ←
    (match total_rev with
     | VNone => Ok false
     | _ => Py.ge total_rev (VInt 50000000)
     end);
  if c : bool then Ok GREEN else Ok RED.

Definition borrowing_to_revenue_flag (data : document) (financial_index : Z)
  : result FLAGS :=
  in_data ← Py.contains "total_revenue" (VDict data);
  guard ←
    (if in_data : bool then
       revenues ← Py.getitem_str (VDict data) "total_revenue";
       if Py.is_list revenues then
         n ← Py.len revenues;
         Ok (financial_index <? n)
       else Ok false
     else Ok false);
  if guard : bool then
    total_borrowings ← total_borrowing data financial_index;
    revenues ← Py.getitem_str (VDict data) "total_revenue";
    total_revenue_value ← Py.getitem_int revenues financial_index;
    ratio ← Py.truediv total_borrowings total_revenue_value;
    c ← Py.le ratio (VFloat 0.25);
    if c : bool then Ok GREEN else Ok AMBER
  else Ok AMBER.

(** ** app.py *)

Abbreviation flag_result := (gmap string (gmap string FLAGS)).

Definition probe_model_5l_profit (data : document) : result flag_result :=
  lastest_financial_index_value ← latest_financial_index data;
  total_revenue_5cr_flag_value ←
    total_revenue_5cr_flag data lastest_financial_index_value;
  borrowing_to_revenue_flag_value ←
    borrowing_to_revenue_flag data lastest_financial_index_value;
  iscr_flag_value ← iscr_flag data lastest_financial_index_value;
  Ok (<["flags" :=
         <["TOTAL_REVENUE_5CR_FLAG" := total_revenue_5cr_flag_value]>
         (<["BORROWING_TO_REVENUE_FLAG" := borrowing_to_revenue_flag_value]>
         (<["ISCR_FLAG" := iscr_flag_value]> ∅))]> ∅).

(** ** The document shape of the data model, as accessors and checks

    These follow the specification's description of a FinancialDocument;
    the engine functions above never call them. *)

(** The entry at position [idx] (counted from 0) of the sequence stored
    under [key]. *)
Definition entry_at (data : document) (key : string) (idx : Z)
  : option value :=
  match data !! key with
  | Some (VList l) => if 0 <=? idx then l !! Z.to_nat idx else None
  | _ => None
  end.

Definition field (v : value) (key : string) : option value :=
  match v with
  | VDict d => d !! key
  | _ => None
  end.

(** The key chain financials[idx].pnl.lineItems.netRevenue. *)
Definition net_revenue_chain (data : document) (idx : Z) : option value :=
  entry ← entry_at data "financials" idx;
  pnl ← field entry "pnl";
  line_items ← field pnl "lineItems";
  field line_items "netRevenue".

(** One link of the chain is absent; the links before it are present. *)
Inductive link_absent (data : document) (idx : Z) : Prop :=
| financials_absent :
    data !! "financials" = None → link_absent data idx
| index_negative :
    idx < 0 → link_absent data idx
| index_beyond l :
    data !! "financials" = Some (VList l) →
    Z.of_nat (length l) ≤ idx → link_absent data idx
| pnl_absent entry :
    entry_at data "financials" idx = Some (VDict entry) →
    entry !! "pnl" = None → link_absent data idx
| line_items_absent entry pnl :
    entry_at data "financials" idx = Some (VDict entry) →
    entry !! "pnl" = Some (VDict pnl) →
    pnl !! "lineItems" = None → link_absent data idx
| net_revenue_absent entry pnl line_items :
    entry_at data "financials" idx = Some (VDict entry) →
    entry !! "pnl" = Some (VDict pnl) →
    pnl !! "lineItems" = Some (VDict line_items) →
    line_items !! "netRevenue" = None → link_absent data idx.

(** The sequence stored under [key], empty when the key is absent. *)
Definition series_of (data : document) (key : string)
  : option (list value) :=
  match data !! key with
  | None => Some []
  | Some (VList l) => Some l
  | Some _ => None
  end.

Definition opt_all (P : value → bool) (o : option value) : bool :=
  match o with
  | None => true
  | Some v => P v
  end.

Definition line_items_ok (v : value) : bool :=
  match v with
  | VDict li => opt_all Py.is_number (li !! "netRevenue")
  | _ => false
  end.

Definition pnl_ok (v : value) : bool :=
  match v with
  | VDict p => opt_all line_items_ok (p !! "lineItems")
  | _ => false
  end.

Definition period_ok (v : value) : bool :=
  match v with
  | VDict e => opt_all pnl_ok (e !! "pnl")
  | _ => false
  end.

Definition financials_ok (v : value) : bool :=
  match v with
  | VList l => forallb period_ok l
  | _ => false
  end.

Definition series_ok (v : value) : bool :=
  match v with
  | VList l => forallb Py.is_number l
  | _ => false
  end.

Definition balance_ok (v : value) : bool :=
  match v with
  | VDict e =>
      match e !! "long_term_borrowings", e !! "short_term_borrowings" with
      | Some a, Some b => series_ok a && series_ok b
      | _, _ => false
      end
  | _ => false
  end.

Definition bs_ok (v : value) : bool :=
  match v with
  | VList l => forallb balance_ok l
  | _ => false
  end.

(** Every field that is present has the shape the data model gives it. *)
Definition well_shaped (data : document) : bool :=
  opt_all financials_ok (data !! "financials")
  && opt_all bs_ok (data !! "bs")
  && opt_all series_ok (data !! "profit_before_interest_tax_deprec")
  && opt_all series_ok (data !! "interest_expenses")
  && opt_all series_ok (data !! "total_revenue").

(** ** The two ratios, as the expressions the source evaluates *)

(** [(p + 1) / (q + 1)], the quotient of [iscr]. *)
Definition offset_quotient (p q : value) : result value :=
  numerator ← Py.add p (VInt 1);
  denominator ← Py.add q (VInt 1);
  Py.truediv numerator denominator.

(** [(long + short) / total_rev] behind its guard [total_rev != 0], the
    last step of [total_borrowing]. *)
Definition guarded_quotient (long_term_borrowings short_term_borrowings
                             total_rev : value) : result value :=
  if negb (Py.eq_int total_rev 0) then
    borrowings ← Py.add long_term_borrowings short_term_borrowings;
    Py.truediv borrowings total_rev
  else Ok VNone.

(** The same from the two lists of borrowings. *)
Definition borrowing_ratio (long_list short_list total_rev : value)
  : result value :=
  long_term_borrowings ← Py.sum long_list;
  short_term_borrowings ← Py.sum short_list;
  guarded_quotient long_term_borrowings short_term_borrowings total_rev.

(** The sum of a list of ints. *)
Definition total (zs : list Z) : Z := foldr Z.add 0 zs.

(** A number a float can be divided by: its float exists and is not
    zero. *)
Definition float_divisor (v : value) : bool :=
  match Py.as_num v with
  | Some y =>
      match Py.to_float y with
      | Ok g => negb (g =? 0)%float
      | Raise _ => false
      end
  | None => false
  end.

(** ** The classifiers by name, for evaluation in any order *)

Inductive classifier : Type :=
| TOTAL_REVENUE_5CR_FLAG | BORROWING_TO_REVENUE_FLAG | ISCR_FLAG.


Definition classify (c : classifier) : document → Z → result FLAGS :=
  match c with
  | TOTAL_REVENUE_5CR_FLAG => total_revenue_5cr_flag
  | BORROWING_TO_REVENUE_FLAG => borrowing_to_revenue_flag
  | ISCR_FLAG => iscr_flag
  end.



(** ** The calls of the pipeline

    [probe_model_5l_profit] once more, this time keeping beside the
    outcome the calls it makes on rules.py, in the order it makes them.  A
    call that raises ends the run. *)

Inductive call : Type :=
| Call_latest_financial_index (data : document)
| Call_classifier (c : classifier) (data : document) (financial_index : Z).

Record run (A : Type) : Type := Run { calls : list call; outcome : result A }.
Arguments Run {A} calls outcome.
Arguments calls {A} r.
Arguments outcome {A} r.

Definition run_bind {A B} (m : run A) (f : A → run B) : run B :=
  match outcome m with
  | Ok a => Run (calls m ++ calls (f a)) (outcome (f a))
  | Raise e => Run (calls m) (Raise e)
  end.

#[global] Instance run_mbind : MBind run := λ A B f m, run_bind m f.







(** ** Concrete documents: the scenarios of the specification *)

Module Scenario.

Definition dict (kvs : list (string * value)) : value :=
  VDict (list_to_map kvs).
Definition doc (kvs : list (string * value)) : document :=
  list_to_map kvs.

Definition period (nature : string) (net_revenue : Z) : value :=
  dict [("nature", VStr nature);
        ("pnl", dict [("lineItems",
                       dict [("netRevenue", VInt net_revenue)])])].

Definition balance (long short : list Z) : value :=
  dict [("long_term_borrowings", VList (VInt <$> long));
        ("short_term_borrowings", VList (VInt <$> short))].

(** {} *)
Definition empty : document := doc [].

(** financials = [CONSOLIDATED, STANDALONE with netRevenue 60000000] *)
Definition two_periods : document :=
  doc [("financials",
        VList [dict [("nature", VStr "CONSOLIDATED")];
               period "STANDALONE" 60000000])].

(** profit_before_interest_tax_deprec = [9], interest_expenses = [4] *)
Definition coverage : document :=
  doc [("profit_before_interest_tax_deprec", VList [VInt 9]);
       ("interest_expenses", VList [VInt 4])].

(** profit_before_interest_tax_deprec = [9], interest_expenses = [-1] *)
Definition coverage_minus_one : document :=
  doc [("profit_before_interest_tax_deprec", VList [VInt 9]);
       ("interest_expenses", VList [VInt (-1)])].

(** total_revenue = [100], bs = [{long: [10], short: [15]}] *)
Definition boundary : document :=
  doc [("total_revenue", VList [VInt 100]);
       ("bs", VList [balance [10] [15]])].

(** The boundary document completed with a period of netRevenue 100. *)
Definition aligned : document :=
  doc [("financials", VList [period "STANDALONE" 100]);
       ("total_revenue", VList [VInt 100]);
       ("bs", VList [balance [10] [15]]);
       ("profit_before_interest_tax_deprec", VList [VInt 9]);
       ("interest_expenses", VList [VInt 4])].


(** total_revenue = [0] and nothing else *)
Definition zero_revenue : document :=
  doc [("total_revenue", VList [VInt 0])].

(** financials = 5: a value of the wrong shape *)
Definition misshapen : document :=
  doc [("financials", VInt 5)].

(** One STANDALONE period of the given netRevenue, one balance sheet, and
    the given [total_revenue]. *)
Definition ledger (long short : list Z) (net_revenue : Z)
  (revenues : list Z) : document :=
  doc [("financials", VList [period "STANDALONE" net_revenue]);
       ("total_revenue", VList (VInt <$> revenues));
       ("bs", VList [balance long short])].

(** Borrowings 4 and 6 over a revenue of 30: a third, which no float is. *)
Definition third : document := ledger [4] [6] 30 [].

(** Two borrowings of 10^308, each inside the float range, over a revenue
    of 1. *)
Definition beyond : document := ledger [10 ^ 308; 10 ^ 308] [] 1 [].

(** Borrowings of 2^53 over a revenue of 1, and total_revenue = [2^55 - 1],
    which as a float is 2^55. *)
Definition quarter : document := ledger [2 ^ 53] [] 1 [2 ^ 55 - 1].

(** Borrowings of 25000000000000001 over a revenue of 10^17, and
    total_revenue = [1]: a hair above a quarter before rounding. *)
Definition hair : document :=
  ledger [25000000000000001] [] (10 ^ 17) [1].

(** profit_before_interest_tax_deprec = [2 * 10^17],
    interest_expenses = [10^17] *)
Definition coverage_large : document :=
  doc [("profit_before_interest_tax_deprec", VList [VInt (2 * 10 ^ 17)]);
       ("interest_expenses", VList [VInt (10 ^ 17)])].

(** profit_before_interest_tax_deprec = [10^400], interest_expenses = [4] *)
Definition coverage_beyond : document :=
  doc [("profit_before_interest_tax_deprec", VList [VInt (10 ^ 400)]);
       ("interest_expenses", VList [VInt 4])].

(** The same two series as floats: [9.0] and [4.0]. *)
Definition coverage_floats : document :=
  doc [("profit_before_interest_tax_deprec", VList [VFloat 9]);
       ("interest_expenses", VList [VFloat 4])].

End Scenario.

(** ** Reading the outcomes *)


Definition is_dict (v : value) : bool :=
  match v with VDict _ => true | _ => false end.

(** A period entry whose [nature] is "STANDALONE". *)
Definition is_standalone (v : value) : bool :=
  match field v "nature" with
  | Some n => Py.eq_str n "STANDALONE"
  | None => false
  end.

(** A period entry of another nature, which the selector passes over. *)
Definition skipped (e : value) : Prop :=
  is_dict e = true ∧ is_standalone e = false.

(** The mapping the pipeline stores under "flags". *)
Definition flag_map (a b c : FLAGS) : gmap string FLAGS :=
  <["TOTAL_REVENUE_5CR_FLAG" := a]>
  (<["BORROWING_TO_REVENUE_FLAG" := b]>
  (<["ISCR_FLAG" := c]> ∅)).

(** ** app.py: the session and the page

    [st.session_state] is a store of attributes; the page is the sequence
    of calls made on streamlit.  The argument of [main] stands for the
    uploaded file as [json.loads] returns it, absent when no file is
    uploaded; a file that does not parse is outside this model. *)

(** What the session holds under a key: [None] or a result mapping. *)
Inductive stored : Type :=
| SNone
| SResults (r : flag_result).

Abbreviation session_state := (gmap string stored).

(** The calls on streamlit, in the order they are made. *)
Inductive ui : Type :=
| StTitle (s : string)
| StFileUploader (label : string)
| StWrite (s : string)
| StSuccess (s : string)
| StSubheader (s : string)
| StJson (r : flag_result).

(** One run of the script: what was shown, the session it leaves, and
    the exception that ended it, if any. *)
Record page : Type := Page {
  shown : list ui;
  session : session_state;
  raised : option exn
}.

Definition initialize_session_state (st : session_state) : session_state :=
  if bool_decide (is_Some (st !! "results")) then st
  else <["results" := SNone]> st.

(** [probe_model_5l_profit] applied to whatever [data["data"]] is: its
    first step, [data.get], is an attribute of dicts only. *)
Definition probe_value (v : value) : result flag_result :=
  match v with
  | VDict d => probe_model_5l_profit d
  | _ => Raise AttributeError
  end.

(** Truth value of a stored attribute: [None] and the empty dict are
    false. *)
Definition truthy (s : stored) : bool :=
  match s with
  | SNone => false
  | SResults r => negb (bool_decide (r = ∅))
  end.

(** The closing [if st.session_state.results:] block. *)
Definition show_results (st : session_state) (calls : list ui) : page :=
  match st !! "results" with
  | Some (SResults r as s) =>
      if truthy s then
        Page (calls ++ [StSubheader "Results:"; StJson r])%list st None
      else Page calls st None
  | Some SNone => Page calls st None
  | None => Page calls st (Some AttributeError)
  end.

Definition main (uploaded_file : option value) (st : session_state) : page :=
  let calls := [StTitle "Financial Analysis Web App"] in
  let st := initialize_session_state st in
  let calls := (calls ++ [StFileUploader "Upload data.json"])%list in
  match uploaded_file with
  | Some data =>
      let calls := (calls ++ [StWrite "Calculating results..."])%list in
      match (inner ← Py.getitem_str data "data"; probe_value inner) with
      | Ok results =>
          let calls := (calls ++ [StSuccess "Calculation completed!"])%list in
          show_results (<["results" := SResults results]> st) calls
      | Raise e => Page calls st (Some e)
      end
  | None => show_results st calls
  end.

(** * Properties of the primitives *)

Section Primitives.

Lemma bind_Ok {A B} (a : A) (f : A → result B) : (Ok a ≫= f) = f a.
Proof. reflexivity. Qed.

Lemma bind_Raise {A B} (e : exn) (f : A → result B) :
  (Raise e ≫= f) = Raise e.
Proof. reflexivity. Qed.

Lemma bind_returns {A B} (m : result A) (f : A → result B) b :
  (m ≫= f) = Ok b → ∃ a, m = Ok a ∧ f a = Ok b.
Proof. destruct m as [a|e]; [eauto | discriminate]. Qed.

Lemma seq_pos_nonneg n i :
  0 ≤ i < n → Py.seq_pos n i = Some (Z.to_nat i).
Proof.
  intros [H0 Hn]. unfold Py.seq_pos.
  destruct (Z.ltb_spec i 0); [lia|].
  destruct (Z.leb_spec 0 i); [|lia].
  destruct (Z.ltb_spec i n); [reflexivity | lia].
Qed.

Lemma seq_pos_negative n i :
  - n ≤ i < 0 → Py.seq_pos n i = Some (Z.to_nat (i + n)).
Proof.
  intros [H0 Hn]. unfold Py.seq_pos.
  destruct (Z.ltb_spec i 0); [|lia].
  destruct (Z.leb_spec 0 (i + n)); [|lia].
  destruct (Z.ltb_spec (i + n) n); [reflexivity | lia].
Qed.

Lemma seq_pos_below n i : 0 ≤ n → i < - n → Py.seq_pos n i = None.
Proof.
  intros Hn Hi. unfold Py.seq_pos.
  destruct (Z.ltb_spec i 0); [|lia].
  destruct (Z.leb_spec 0 (i + n)); [lia | reflexivity].
Qed.

Lemma getitem_int_list (l : list value) i x :
  0 ≤ i → l !! Z.to_nat i = Some x → Py.getitem_int (VList l) i = Ok x.
Proof.
  intros Hi Hx. unfold Py.getitem_int.
  rewrite seq_pos_nonneg, Hx; [reflexivity|].
  apply lookup_lt_Some in Hx. lia.
Qed.

Lemma getitem_int_list_negative (l : list value) i :
  - Z.of_nat (length l) ≤ i < 0 →
  ∃ x, l !! Z.to_nat (i + Z.of_nat (length l)) = Some x
       ∧ Py.getitem_int (VList l) i = Ok x.
Proof.
  intros Hi. unfold Py.getitem_int. rewrite seq_pos_negative by exact Hi.
  destruct (lookup_lt_is_Some_2 l (Z.to_nat (i + Z.of_nat (length l))))
    as [x Hx]; [lia|].
  exists x. rewrite Hx. split; reflexivity.
Qed.

Lemma contains_dict k (d : gmap string value) v :
  d !! k = Some v → Py.contains k (VDict d) = Ok true.
Proof.
  intros H. unfold Py.contains. f_equal. apply bool_decide_eq_true.
  rewrite H. eauto.
Qed.

Lemma contains_dict_absent k (d : gmap string value) :
  d !! k = None → Py.contains k (VDict d) = Ok false.
Proof.
  intros H. unfold Py.contains. f_equal. apply bool_decide_eq_false.
  rewrite H. apply is_Some_None.
Qed.

Lemma getitem_str_dict k (d : gmap string value) v :
  d !! k = Some v → Py.getitem_str (VDict d) k = Ok v.
Proof. intros H. unfold Py.getitem_str. rewrite H. reflexivity. Qed.

Lemma get_dict k (d : gmap string value) v dflt :
  d !! k = Some v → Py.get (VDict d) k dflt = Ok v.
Proof. intros H. unfold Py.get. rewrite H. reflexivity. Qed.

Lemma get_dict_absent k (d : gmap string value) dflt :
  d !! k = None → Py.get (VDict d) k dflt = Ok dflt.
Proof. intros H. unfold Py.get. rewrite H. reflexivity. Qed.

Lemma entry_at_list (data : document) key idx v :
  entry_at data key idx = Some v →
  ∃ l, data !! key = Some (VList l) ∧ 0 ≤ idx
       ∧ l !! Z.to_nat idx = Some v ∧ idx < Z.of_nat (length l).
Proof.
  unfold entry_at. destruct (data !! key) as [[| | | | |l|]|]; try discriminate.
  destruct (Z.leb_spec 0 idx); [|discriminate].
  intros Hv. exists l. repeat split; try assumption.
  apply lookup_lt_Some in Hv. lia.
Qed.

End Primitives.

(** Evaluate the primitives whose arguments the context determines. *)
Ltac py_run :=
  repeat first
    [ rewrite bind_Ok
    | rewrite bind_Raise
    | progress cbv beta iota
    | match goal with
      | H : ?d !! ?k = Some _ |- context [Py.contains ?k (VDict ?d)] =>
          rewrite (contains_dict _ _ _ H)
      | H : ?d !! ?k = None |- context [Py.contains ?k (VDict ?d)] =>
          rewrite (contains_dict_absent _ _ H)
      | H : ?d !! ?k = Some _ |- context [Py.getitem_str (VDict ?d) ?k] =>
          rewrite (getitem_str_dict _ _ _ H)
      | H : ?d !! ?k = Some _ |- context [Py.get (VDict ?d) ?k _] =>
          rewrite (get_dict _ _ _ _ H)
      | H : ?d !! ?k = None |- context [Py.get (VDict ?d) ?k _] =>
          rewrite (get_dict_absent _ _ _ H)
      end ].

(** * Revenue extraction *)

Section Revenue.

Variable data : document.
Variable idx : Z.

Lemma total_revenue_absent :
  data !! "financials" = None → total_revenue data idx = Ok VNone.
Proof.
  intros H. unfold total_revenue.
  rewrite (contains_dict_absent _ _ H). reflexivity.
Qed.

Lemma total_revenue_negative : idx < 0 → total_revenue data idx = Ok VNone.
Proof.
  intros H. unfold total_revenue, Py.contains.
  destruct (bool_decide _); [|reflexivity].
  rewrite bind_Ok. destruct (Z.leb_spec 0 idx); [lia | reflexivity].
Qed.

Lemma total_revenue_beyond l :
  data !! "financials" = Some (VList l) → Z.of_nat (length l) ≤ idx →
  total_revenue data idx = Ok VNone.
Proof.
  intros H Hlen. unfold total_revenue.
  rewrite (contains_dict _ _ _ H), bind_Ok, (getitem_str_dict _ _ _ H).
  destruct (Z.leb_spec 0 idx); [|reflexivity].
  cbn. destruct (Z.ltb_spec idx (Z.of_nat (length l))); [lia | reflexivity].
Qed.

(** The body of [total_revenue] once the period entry is selected. *)
Lemma total_revenue_entry entry :
  entry_at data "financials" idx = Some entry →
  total_revenue data idx =
    (has_pnl ← Py.contains "pnl" entry;
     has_items ←
       (if has_pnl : bool then
          pnl ← Py.getitem_str entry "pnl"; Py.contains "lineItems" pnl
        else Ok false);
     if has_items : bool then
       pnl ← Py.getitem_str entry "pnl";
       line_items ← Py.getitem_str pnl "lineItems";
       has_net ← Py.contains "netRevenue" line_items;
       if has_net : bool then Py.getitem_str line_items "netRevenue"
       else Ok VNone
     else Ok VNone).
Proof.
  intros He. apply entry_at_list in He as (l & H & H0 & Hl & Hlt).
  unfold total_revenue.
  rewrite (contains_dict _ _ _ H), bind_Ok, (getitem_str_dict _ _ _ H).
  destruct (Z.leb_spec 0 idx); [|lia].
  cbn [mbind result_bind Py.len].
  destruct (Z.ltb_spec idx (Z.of_nat (length l))); [|lia].
  rewrite (getitem_int_list _ _ _ H0 Hl). reflexivity.
Qed.

End Revenue.

Lemma net_revenue_chain_Some (data : document) (idx : Z) v :
  net_revenue_chain data idx = Some v →
  ∃ entry pnl line_items,
    entry_at data "financials" idx = Some (VDict entry)
    ∧ entry !! "pnl" = Some (VDict pnl)
    ∧ pnl !! "lineItems" = Some (VDict line_items)
    ∧ line_items !! "netRevenue" = Some v.
Proof.
  unfold net_revenue_chain.
  destruct (entry_at data "financials" idx) as [[| | | | | |e]|];
    simpl; try discriminate.
  destruct (e !! "pnl") as [[| | | | | |p]|] eqn:Hp; simpl; try discriminate.
  destruct (p !! "lineItems") as [[| | | | | |li]|] eqn:Hli;
    simpl; try discriminate.
  intros Hv. exists e, p, li. auto.
Qed.

(** C5: [total_revenue] returns the [netRevenue] value itself when the
    chain financials -> index in bounds -> pnl -> lineItems -> netRevenue
    resolves, and returns the missing sentinel [None], which is not zero,
    without raising whenever one link of the chain is absent, for indices
    in and out of bounds. *)
Theorem total_revenue_chain (data : document) (idx : Z) :
  (∀ v, net_revenue_chain data idx = Some v → total_revenue data idx = Ok v)
  ∧ (link_absent data idx →
     total_revenue data idx = Ok VNone ∧ Py.eq_int VNone 0 = false).
Proof.
  split.
  - intros v Hv.
    apply net_revenue_chain_Some in Hv as (e & p & li & He & Hp & Hli & Hv).
    rewrite (total_revenue_entry _ _ _ He).
    py_run. reflexivity.
  - intros Habs. split; [|reflexivity].
    destruct Habs as [H | H | l H Hl | e He Hp | e p He Hp Hli
                     | e p li He Hp Hli Hv].
    + apply total_revenue_absent, H.
    + apply total_revenue_negative, H.
    + eapply total_revenue_beyond; eassumption.
    + rewrite (total_revenue_entry _ _ _ He). py_run. reflexivity.
    + rewrite (total_revenue_entry _ _ _ He). py_run. reflexivity.
    + rewrite (total_revenue_entry _ _ _ He). py_run. reflexivity.
Qed.

Lemma total_revenue_chain_witness :
  total_revenue Scenario.two_periods 1 = Ok (VInt 60000000)
  ∧ total_revenue Scenario.two_periods 0 = Ok VNone
  ∧ total_revenue Scenario.two_periods 2 = Ok VNone
  ∧ total_revenue Scenario.empty 0 = Ok VNone.
Proof.
  split; [|split; [|split]].
  - apply (proj1 (total_revenue_chain Scenario.two_periods 1)).
    vm_compute. reflexivity.
  - apply (proj2 (total_revenue_chain Scenario.two_periods 0)).
    eapply (pnl_absent _ _ (list_to_map [("nature", VStr "CONSOLIDATED")]));
      vm_compute; reflexivity.
  - apply (proj2 (total_revenue_chain Scenario.two_periods 2)).
    eapply index_beyond; [vm_compute; reflexivity | simpl; lia].
  - apply (proj2 (total_revenue_chain Scenario.empty 0)).
    apply financials_absent. vm_compute. reflexivity.
Defined.

(** * The revenue-size flag *)

Lemma ge_num r x z :
  Py.as_num r = Some x →
  Py.ge r (VInt z) = Ok (Py.num_ge x (Py.NInt z)).
Proof. intros H. unfold Py.ge. rewrite H. reflexivity. Qed.

Lemma total_revenue_5cr_flag_missing data idx :
  total_revenue data idx = Ok VNone →
  total_revenue_5cr_flag data idx = Ok RED.
Proof. intros H. unfold total_revenue_5cr_flag. rewrite H. reflexivity. Qed.

Lemma total_revenue_5cr_flag_number data idx r x :
  total_revenue data idx = Ok r → Py.as_num r = Some x →
  total_revenue_5cr_flag data idx =
    Ok (if Py.num_ge x (Py.NInt 50000000) then GREEN else RED).
Proof.
  intros H Hx. unfold total_revenue_5cr_flag. rewrite H, bind_Ok.
  replace (match r with VNone => Ok false | _ => Py.ge r (VInt 50000000) end)
    with (Py.ge r (VInt 50000000)) by (destruct r; try reflexivity; discriminate).
  rewrite (ge_num _ _ _ Hx), bind_Ok.
  destruct (Py.num_ge _ _); reflexivity.
Qed.



(** * The period selector *)

Section PeriodSelector.

Lemma first_standalone_hit e rest k :
  is_standalone e = true → first_standalone k (e :: rest) = Ok k.
Proof.
  unfold is_standalone, field. destruct e as [| | | | | |d]; try discriminate.
  destruct (d !! "nature") as [n|] eqn:Hn; [|discriminate].
  intros Heq. cbn [first_standalone]. py_run. rewrite Heq. reflexivity.
Qed.

Lemma first_standalone_miss e rest k :
  skipped e → first_standalone k (e :: rest) = first_standalone (k + 1) rest.
Proof.
  intros [Hd Hs]. destruct e as [| | | | | |d]; try discriminate.
  unfold is_standalone, field in Hs. cbn [first_standalone].
  destruct (d !! "nature") as [n|] eqn:Hn; py_run.
  - rewrite Hs. reflexivity.
  - reflexivity.
Qed.

Lemma first_standalone_skip pre rest k :
  Forall skipped pre →
  first_standalone k (pre ++ rest)
  = first_standalone (k + Z.of_nat (length pre)) rest.
Proof.
  intros Hpre. revert k.
  induction Hpre as [|e pre He _ IH]; intros k.
  - simpl. f_equal. lia.
  - rewrite <- app_comm_cons, (first_standalone_miss _ _ _ He), IH.
    f_equal. simpl length. lia.
Qed.

Lemma first_standalone_nonneg items k i :
  0 ≤ k → first_standalone k items = Ok i → 0 ≤ i.
Proof.
  revert k. induction items as [|e rest IH]; intros k Hk.
  - simpl. intros [= <-]. lia.
  - cbn [first_standalone]. intros H.
    apply bind_returns in H as (n & _ & H).
    destruct (Py.eq_str n "STANDALONE").
    + injection H as <-. exact Hk.
    + apply (IH (k + 1)); [lia | exact H].
Qed.

(** The index of the first STANDALONE entry, when the entries before it
    are periods of another nature. *)
Lemma latest_financial_index_first (data : document) l i e :
  data !! "financials" = Some (VList l) →
  l !! i = Some e → is_standalone e = true →
  Forall skipped (take i l) →
  latest_financial_index data = Ok (Z.of_nat i).
Proof.
  intros H Hi He Hpre. unfold latest_financial_index. py_run.
  cbn [Py.iter]. py_run.
  rewrite <- (take_drop_middle l i e Hi), (first_standalone_skip _ _ _ Hpre).
  rewrite (first_standalone_hit _ _ _ He). f_equal.
  rewrite length_take. apply lookup_lt_Some in Hi. lia.
Qed.

(** No STANDALONE entry, the empty sequence included: the default 0. *)
Lemma latest_financial_index_default (data : document) l :
  data !! "financials" = Some (VList l) → Forall skipped l →
  latest_financial_index data = Ok 0.
Proof.
  intros H Hl. unfold latest_financial_index. py_run. cbn [Py.iter]. py_run.
  rewrite <- (app_nil_r l), (first_standalone_skip _ _ _ Hl). reflexivity.
Qed.

Lemma latest_financial_index_nonneg (data : document) i :
  latest_financial_index data = Ok i → 0 ≤ i.
Proof.
  unfold latest_financial_index. intros H.
  apply bind_returns in H as (f & _ & H).
  apply bind_returns in H as (items & _ & H).
  apply (first_standalone_nonneg items 0); [lia | exact H].
Qed.

End PeriodSelector.

(** C2: with the key [financials] absent, [latest_financial_index] does
    not fall back to 0: [data.get("financials")] is [None] and iterating
    over it raises TypeError. *)
Theorem latest_financial_index_absent (data : document) :
  data !! "financials" = None →
  latest_financial_index data = Raise TypeError.
Proof.
  intros H. unfold latest_financial_index. py_run. reflexivity.
Qed.

Lemma latest_financial_index_absent_witness :
  latest_financial_index Scenario.empty = Raise TypeError.
Proof.
  apply (latest_financial_index_absent Scenario.empty).
  vm_compute. reflexivity.
Defined.

(** * Arithmetic *)

(** Split on the tests of an arithmetic primitive. *)
Ltac num_cases :=
  rewrite ?bind_Ok, ?bind_Raise;
  repeat match goal with
    | |- context [if ?c then _ else _] =>
        destruct c; rewrite ?bind_Ok, ?bind_Raise
    end.

Section Arithmetic.

Lemma add_ints a b x y :
  Py.as_num a = Some (Py.NInt x) → Py.as_num b = Some (Py.NInt y) →
  Py.add a b = Ok (VInt (x + y)).
Proof. intros Ha Hb. unfold Py.add. rewrite Ha, Hb. reflexivity. Qed.

Lemma add_floats a b f g :
  Py.as_num a = Some (Py.NFloat f) → Py.as_num b = Some (Py.NFloat g) →
  Py.add a b = Ok (VFloat (f + g)).
Proof. intros Ha Hb. unfold Py.add. rewrite Ha, Hb. reflexivity. Qed.

Lemma add_int_one v a :
  Py.as_num v = Some (Py.NInt a) → Py.add v (VInt 1) = Ok (VInt (a + 1)).
Proof. intros H. apply (add_ints _ _ _ _ H). reflexivity. Qed.

Lemma add_float_one v f :
  Py.as_num v = Some (Py.NFloat f) → Py.add v (VInt 1) = Ok (VFloat (f + 1)).
Proof. intros H. unfold Py.add. rewrite H. reflexivity. Qed.

Lemma truediv_ints (a b : Z) :
  Py.truediv (VInt a) (VInt b) =
    if b =? 0 then Raise ZeroDivisionError
    else if is_infinity (Py.int_quotient a b) then Raise OverflowError
    else Ok (VFloat (Py.int_quotient a b)).
Proof. reflexivity. Qed.

Lemma truediv_floats (f g : float) :
  Py.truediv (VFloat f) (VFloat g) =
    if (g =? 0)%float then Raise ZeroDivisionError else Ok (VFloat (f / g)).
Proof. reflexivity. Qed.

Lemma truediv_int_float (a : Z) (g : float) :
  Py.truediv (VInt a) (VFloat g) =
    if is_infinity (Py.float_of_int a) then Raise OverflowError
    else if (g =? 0)%float then Raise ZeroDivisionError
    else Ok (VFloat (Py.float_of_int a / g)).
Proof.
  unfold Py.truediv, Py.to_float. cbn [Py.as_num].
  destruct (is_infinity (Py.float_of_int a)); reflexivity.
Qed.

Lemma truediv_float_int (f : float) (b : Z) :
  Py.truediv (VFloat f) (VInt b) =
    if is_infinity (Py.float_of_int b) then Raise OverflowError
    else if (Py.float_of_int b =? 0)%float then Raise ZeroDivisionError
    else Ok (VFloat (f / Py.float_of_int b)).
Proof.
  unfold Py.truediv, Py.to_float. cbn [Py.as_num].
  destruct (is_infinity (Py.float_of_int b)); reflexivity.
Qed.

(** Whatever a division returns is a float. *)
Lemma truediv_float a b v : Py.truediv a b = Ok v → ∃ q, v = VFloat q.
Proof.
  unfold Py.truediv, Py.to_float.
  destruct (Py.as_num a) as [[x|f]|], (Py.as_num b) as [[y|g]|];
    try discriminate;
    num_cases;
    try discriminate; intros [= <-]; eauto.
Qed.

(** A float divided by a number whose float is not zero. *)
Lemma truediv_float_divisor (f : float) (r : value) :
  float_divisor r = true → ∃ q, Py.truediv (VFloat f) r = Ok (VFloat q).
Proof.
  unfold float_divisor, Py.truediv. cbn [Py.as_num].
  destruct (Py.as_num r) as [y|]; [|discriminate].
  assert (H : ∀ g, Py.to_float y = Ok g → negb (g =? 0)%float = true →
              ∃ q, (fx ← Py.to_float (Py.NFloat f); fy ← Py.to_float y;
                    if (fy =? 0)%float then Raise ZeroDivisionError
                    else Ok (VFloat (fx / fy))) = Ok (VFloat q)).
  { intros g -> Hg. cbn [Py.to_float mbind result_bind].
    destruct (g =? 0)%float; [discriminate | eauto]. }
  destruct (Py.to_float y) as [g|e] eqn:Hy; [|discriminate].
  intros Hg. destruct y; apply (H g); assumption || reflexivity.
Qed.

Lemma truediv_missing a : Py.truediv a VNone = Raise TypeError.
Proof. unfold Py.truediv. destruct (Py.as_num a) as [[|]|]; reflexivity. Qed.

Lemma add_number a b c : Py.add a b = Ok c → Py.is_number c = true.
Proof.
  unfold Py.add, Py.to_float.
  destruct (Py.as_num a) as [[x|f]|], (Py.as_num b) as [[y|g]|];
    try discriminate;
    num_cases;
    try discriminate; intros [= <-]; reflexivity.
Qed.

Lemma sum_from_number items acc s :
  Py.is_number acc = true → Py.sum_from acc items = Ok s →
  Py.is_number s = true.
Proof.
  revert acc. induction items as [|x rest IH]; intros acc Hacc.
  - simpl. intros [= <-]. exact Hacc.
  - cbn [Py.sum_from]. intros H.
    apply bind_returns in H as (acc' & Hadd & H).
    apply (IH acc'); [apply (add_number _ _ _ Hadd) | exact H].
Qed.

(** Whatever [sum] returns is a number. *)
Lemma sum_number v s : Py.sum v = Ok s → Py.is_number s = true.
Proof.
  unfold Py.sum. intros H. apply bind_returns in H as (items & _ & H).
  apply (sum_from_number items (VInt 0)); [reflexivity | exact H].
Qed.

Lemma sum_from_ints (zs : list Z) (acc : Z) :
  Py.sum_from (VInt acc) (VInt <$> zs) = Ok (VInt (acc + total zs)).
Proof.
  revert acc. induction zs as [|z zs IH]; intros acc.
  - simpl. do 2 f_equal. unfold total. simpl. lia.
  - cbn [fmap list_fmap Py.sum_from].
    change (Py.add (VInt acc) (VInt z)) with (Ok (VInt (acc + z))).
    rewrite bind_Ok. change (list_fmap Z value VInt zs) with (VInt <$> zs).
    rewrite IH.
    do 2 f_equal. unfold total. simpl. lia.
Qed.

(** A list of ints sums exactly, whatever their size. *)
Lemma sum_ints (zs : list Z) :
  Py.sum (VList (VInt <$> zs)) = Ok (VInt (total zs)).
Proof.
  unfold Py.sum. cbn [Py.iter]. rewrite bind_Ok, sum_from_ints. reflexivity.
Qed.

Lemma eq_int_num (z k : Z) : Py.eq_int (VInt z) k = (z =? k).
Proof. reflexivity. Qed.

(** The guarded quotient of ints. *)
Lemma guarded_quotient_ints (z1 z2 z : Z) :
  guarded_quotient (VInt z1) (VInt z2) (VInt z) =
    if z =? 0 then Ok VNone
    else if is_infinity (Py.int_quotient (z1 + z2) z) then Raise OverflowError
    else Ok (VFloat (Py.int_quotient (z1 + z2) z)).
Proof.
  unfold guarded_quotient. rewrite eq_int_num.
  destruct (z =? 0) eqn:E; cbn [negb]; [reflexivity|].
  change (Py.add (VInt z1) (VInt z2)) with (Ok (VInt (z1 + z2))).
  rewrite bind_Ok, truediv_ints, E. reflexivity.
Qed.

(** The offset quotient of ints. *)
Lemma offset_quotient_ints p q a b :
  Py.as_num p = Some (Py.NInt a) → Py.as_num q = Some (Py.NInt b) →
  offset_quotient p q =
    if b + 1 =? 0 then Raise ZeroDivisionError
    else if is_infinity (Py.int_quotient (a + 1) (b + 1))
    then Raise OverflowError
    else Ok (VFloat (Py.int_quotient (a + 1) (b + 1))).
Proof.
  intros Hp Hq. unfold offset_quotient.
  rewrite (add_int_one _ _ Hp), bind_Ok, (add_int_one _ _ Hq), bind_Ok.
  apply truediv_ints.
Qed.

Lemma offset_quotient_floats p q f g :
  Py.as_num p = Some (Py.NFloat f) → Py.as_num q = Some (Py.NFloat g) →
  offset_quotient p q =
    if (g + 1 =? 0)%float then Raise ZeroDivisionError
    else Ok (VFloat ((f + 1) / (g + 1))).
Proof.
  intros Hp Hq. unfold offset_quotient.
  rewrite (add_float_one _ _ Hp), bind_Ok, (add_float_one _ _ Hq), bind_Ok.
  apply truediv_floats.
Qed.

Lemma offset_quotient_int_float p q a g :
  Py.as_num p = Some (Py.NInt a) → Py.as_num q = Some (Py.NFloat g) →
  offset_quotient p q =
    if is_infinity (Py.float_of_int (a + 1)) then Raise OverflowError
    else if (g + 1 =? 0)%float then Raise ZeroDivisionError
    else Ok (VFloat (Py.float_of_int (a + 1) / (g + 1))).
Proof.
  intros Hp Hq. unfold offset_quotient.
  rewrite (add_int_one _ _ Hp), bind_Ok, (add_float_one _ _ Hq), bind_Ok.
  apply truediv_int_float.
Qed.

Lemma offset_quotient_float_int p q f b :
  Py.as_num p = Some (Py.NFloat f) → Py.as_num q = Some (Py.NInt b) →
  offset_quotient p q =
    if is_infinity (Py.float_of_int (b + 1)) then Raise OverflowError
    else if (Py.float_of_int (b + 1) =? 0)%float then Raise ZeroDivisionError
    else Ok (VFloat ((f + 1) / Py.float_of_int (b + 1))).
Proof.
  intros Hp Hq. unfold offset_quotient.
  rewrite (add_float_one _ _ Hp), bind_Ok, (add_int_one _ _ Hq), bind_Ok.
  apply truediv_float_int.
Qed.

Lemma offset_quotient_float p q v :
  offset_quotient p q = Ok v → ∃ f, v = VFloat f.
Proof.
  unfold offset_quotient. intros H.
  apply bind_returns in H as (n & _ & H).
  apply bind_returns in H as (d & _ & H).
  apply (truediv_float _ _ _ H).
Qed.

(** [x >= 2] for a float [x]. *)
Lemma ge_two (f : float) :
  Py.ge (VFloat f) (VInt 2)
  = Ok (if is_finite f then (2 <=? f)%float else (0 <=? f)%float).
Proof. reflexivity. Qed.

(** [x <= 0.25] for a float [x]. *)
Lemma le_quarter (f : float) :
  Py.le (VFloat f) (VFloat 0.25) = Ok (f <=? 0.25)%float.
Proof. reflexivity. Qed.

End Arithmetic.

(** * Interest service coverage *)

Section Coverage.

Variable data : document.
Variable idx : Z.

Lemma get_series key l :
  series_of data key = Some l →
  Py.get (VDict data) key (VList []) = Ok (VList l).
Proof.
  unfold series_of, Py.get.
  destruct (data !! key) as [[| | | | |l'|]|]; try discriminate;
    intros [= <-]; reflexivity.
Qed.

Lemma get_total (key : string) dflt :
  ∃ v, Py.get (VDict data) key dflt = Ok v.
Proof. unfold Py.get. destruct (data !! key); eauto. Qed.

Lemma iscr_negative : idx < 0 → iscr data idx = Ok (VFloat 0).
Proof.
  intros H. unfold iscr.
  destruct (get_total "profit_before_interest_tax_deprec" (VList []))
    as [P ->].
  destruct (get_total "interest_expenses" (VList [])) as [I ->].
  py_run. destruct (Z.leb_spec 0 idx); [lia | reflexivity].
Qed.

Lemma iscr_series P I :
  series_of data "profit_before_interest_tax_deprec" = Some P →
  series_of data "interest_expenses" = Some I →
  iscr data idx =
    if (0 <=? idx)
       && (idx <? Z.min (Z.of_nat (length P)) (Z.of_nat (length I)))
    then
      p ← Py.getitem_int (VList P) idx;
      q ← Py.getitem_int (VList I) idx;
      numerator ← Py.add p (VInt 1);
      denominator ← Py.add q (VInt 1);
      Py.truediv numerator denominator
    else Ok (VFloat 0).
Proof.
  intros HP HI. unfold iscr.
  rewrite (get_series _ _ HP), (get_series _ _ HI). py_run.
  destruct (0 <=? idx); [|reflexivity].
  cbn [Py.len]. py_run. cbn [andb].
  destruct (idx <? _); reflexivity.
Qed.

(** In bounds, [iscr] is the quotient of the two entries, each offset by
    one, as Python evaluates it. *)
Lemma iscr_in_range P I p q :
  series_of data "profit_before_interest_tax_deprec" = Some P →
  series_of data "interest_expenses" = Some I →
  0 ≤ idx → P !! Z.to_nat idx = Some p → I !! Z.to_nat idx = Some q →
  iscr data idx = offset_quotient p q.
Proof.
  intros HP HI H0 Hp Hq. rewrite (iscr_series _ _ HP HI).
  assert (Hlt : idx < Z.min (Z.of_nat (length P)) (Z.of_nat (length I))).
  { apply lookup_lt_Some in Hp, Hq. lia. }
  destruct (Z.leb_spec 0 idx); [|lia].
  destruct (Z.ltb_spec idx
              (Z.min (Z.of_nat (length P)) (Z.of_nat (length I)))); [|lia].
  cbn [andb].
  rewrite (getitem_int_list _ _ _ H0 Hp), bind_Ok,
    (getitem_int_list _ _ _ H0 Hq), bind_Ok.
  reflexivity.
Qed.

Lemma iscr_out_of_range P I :
  series_of data "profit_before_interest_tax_deprec" = Some P →
  series_of data "interest_expenses" = Some I →
  idx < 0 ∨ Z.min (Z.of_nat (length P)) (Z.of_nat (length I)) ≤ idx →
  iscr data idx = Ok (VFloat 0).
Proof.
  intros HP HI Hout. rewrite (iscr_series _ _ HP HI).
  destruct Hout as [Hneg | Hbig].
  - destruct (Z.leb_spec 0 idx); [lia | reflexivity].
  - destruct (Z.ltb_spec idx
                (Z.min (Z.of_nat (length P)) (Z.of_nat (length I)))); [lia|].
    rewrite andb_false_r. reflexivity.
Qed.

End Coverage.

(** C6, as amended: for an index in bounds of both sequences [iscr] is the
    Python expression (profit + 1) / (interest + 1) of the two entries.
    For two ints it raises ZeroDivisionError when the interest is -1;
    otherwise it returns the float nearest to the exact quotient of
    profit + 1 by interest + 1 when that float is finite, and raises
    OverflowError when it is not.  For two floats with interest + 1 other
    than zero it returns the float quotient of the two float sums; for an
    int and a float the int sum is converted first, when it is within the
    float range.  For any index outside the shorter of the two sequences,
    negative indices included, it returns 0.0. *)
Theorem iscr_formula (data : document) (idx : Z) P I :
  series_of data "profit_before_interest_tax_deprec" = Some P →
  series_of data "interest_expenses" = Some I →
  (∀ p q,
      0 ≤ idx → P !! Z.to_nat idx = Some p → I !! Z.to_nat idx = Some q →
      iscr data idx = offset_quotient p q
      ∧ (∀ a b,
           Py.as_num p = Some (Py.NInt a) → Py.as_num q = Some (Py.NInt b) →
           (b = -1 → iscr data idx = Raise ZeroDivisionError)
           ∧ (b ≠ -1 →
              is_infinity (Py.int_quotient (a + 1) (b + 1)) = true →
              iscr data idx = Raise OverflowError)
           ∧ (b ≠ -1 →
              is_infinity (Py.int_quotient (a + 1) (b + 1)) = false →
              iscr data idx
              = Ok (VFloat (Py.int_quotient (a + 1) (b + 1)))))
      ∧ (∀ f g,
           Py.as_num p = Some (Py.NFloat f) →
           Py.as_num q = Some (Py.NFloat g) →
           (g + 1 =? 0)%float = false →
           iscr data idx = Ok (VFloat ((f + 1) / (g + 1))))
      ∧ (∀ a g,
           Py.as_num p = Some (Py.NInt a) → Py.as_num q = Some (Py.NFloat g) →
           is_infinity (Py.float_of_int (a + 1)) = false →
           (g + 1 =? 0)%float = false →
           iscr data idx = Ok (VFloat (Py.float_of_int (a + 1) / (g + 1))))
      ∧ (∀ f b,
           Py.as_num p = Some (Py.NFloat f) → Py.as_num q = Some (Py.NInt b) →
           is_infinity (Py.float_of_int (b + 1)) = false →
           (Py.float_of_int (b + 1) =? 0)%float = false →
           iscr data idx = Ok (VFloat ((f + 1) / Py.float_of_int (b + 1)))))
  ∧ (idx < 0 ∨ Z.min (Z.of_nat (length P)) (Z.of_nat (length I)) ≤ idx →
     iscr data idx = Ok (VFloat 0)).
Proof.
  intros HP HI. split.
  - intros p q H0 Hp Hq.
    rewrite (iscr_in_range data idx P I p q HP HI H0 Hp Hq).
    split; [reflexivity|]. split; [|split; [|split]].
    + intros a b Ha Hb. rewrite (offset_quotient_ints _ _ _ _ Ha Hb).
      destruct (Z.eqb_spec (b + 1) 0);
        (split; [|split]); intros; first [lia | reflexivity | idtac];
        match goal with H : is_infinity _ = _ |- _ => rewrite H end;
        reflexivity.
    + intros f g Hf Hg Hne.
      rewrite (offset_quotient_floats _ _ _ _ Hf Hg), Hne. reflexivity.
    + intros a g Ha Hg Hfin Hne.
      rewrite (offset_quotient_int_float _ _ _ _ Ha Hg), Hfin, Hne.
      reflexivity.
    + intros f b Hf Hb Hfin Hne.
      rewrite (offset_quotient_float_int _ _ _ _ Hf Hb), Hfin, Hne.
      reflexivity.
  - apply (iscr_out_of_range data idx P I HP HI).
Qed.

Lemma iscr_formula_witness :
  iscr Scenario.coverage 0 = Ok (VFloat 2)
  ∧ iscr Scenario.coverage_large 0 = Ok (VFloat 2)
  ∧ iscr Scenario.coverage_floats 0 = Ok (VFloat 2)
  ∧ iscr Scenario.coverage 1 = Ok (VFloat 0)
  ∧ iscr Scenario.coverage (-1) = Ok (VFloat 0)
  ∧ iscr Scenario.coverage_minus_one 0 = Raise ZeroDivisionError
  ∧ iscr Scenario.coverage_beyond 0 = Raise OverflowError.
Proof.
  assert (HP : series_of Scenario.coverage "profit_before_interest_tax_deprec"
               = Some [VInt 9]) by (vm_compute; reflexivity).
  assert (HI : series_of Scenario.coverage "interest_expenses"
               = Some [VInt 4]) by (vm_compute; reflexivity).
  assert (HP' : series_of Scenario.coverage_large
                  "profit_before_interest_tax_deprec"
                = Some [VInt (2 * 10 ^ 17)]) by (vm_compute; reflexivity).
  assert (HI' : series_of Scenario.coverage_large "interest_expenses"
                = Some [VInt (10 ^ 17)]) by (vm_compute; reflexivity).
  assert (HPf : series_of Scenario.coverage_floats
                  "profit_before_interest_tax_deprec"
                = Some [VFloat 9]) by (vm_compute; reflexivity).
  assert (HIf : series_of Scenario.coverage_floats "interest_expenses"
                = Some [VFloat 4]) by (vm_compute; reflexivity).
  assert (H00 : 0 ≤ 0) by lia.
  destruct (iscr_formula Scenario.coverage 0 _ _ HP HI) as [H0 _].
  destruct (iscr_formula Scenario.coverage_large 0 _ _ HP' HI') as [H0' _].
  destruct (iscr_formula Scenario.coverage_floats 0 _ _ HPf HIf) as [H0f _].
  destruct (iscr_formula Scenario.coverage 1 _ _ HP HI) as [_ H1].
  destruct (iscr_formula Scenario.coverage (-1) _ _ HP HI) as [_ Hm].
  assert (HPm : series_of Scenario.coverage_minus_one
                  "profit_before_interest_tax_deprec"
                = Some [VInt 9]) by (vm_compute; reflexivity).
  assert (HIm : series_of Scenario.coverage_minus_one "interest_expenses"
                = Some [VInt (-1)]) by (vm_compute; reflexivity).
  assert (HPb : series_of Scenario.coverage_beyond
                  "profit_before_interest_tax_deprec"
                = Some [VInt (10 ^ 400)]) by (vm_compute; reflexivity).
  assert (HIb : series_of Scenario.coverage_beyond "interest_expenses"
                = Some [VInt 4]) by (vm_compute; reflexivity).
  destruct (iscr_formula Scenario.coverage_minus_one 0 _ _ HPm HIm)
    as [H0m _].
  destruct (iscr_formula Scenario.coverage_beyond 0 _ _ HPb HIb)
    as [H0b _].
  split; [|split; [|split; [|split; [|split; [|split]]]]].
  - destruct (H0 (VInt 9) (VInt 4) H00 eq_refl eq_refl) as (_ & Hint & _).
    destruct (Hint 9 4 eq_refl eq_refl) as (_ & _ & Hok).
    apply Hok; first [lia | reflexivity].
  - destruct (H0' (VInt (2 * 10 ^ 17)) (VInt (10 ^ 17)) H00 eq_refl eq_refl)
      as (_ & Hint & _).
    destruct (Hint (2 * 10 ^ 17) (10 ^ 17) eq_refl eq_refl)
      as (_ & _ & Hok).
    apply Hok; first [lia | reflexivity].
  - destruct (H0f (VFloat 9) (VFloat 4) H00 eq_refl eq_refl)
      as (_ & _ & Hfl & _).
    apply (Hfl 9%float 4%float); reflexivity.
  - apply H1. right. simpl. lia.
  - apply Hm. left. lia.
  - destruct (H0m (VInt 9) (VInt (-1)) H00 eq_refl eq_refl)
      as (_ & Hint & _).
    destruct (Hint 9 (-1) eq_refl eq_refl) as (Hzero & _).
    apply Hzero. reflexivity.
  - destruct (H0b (VInt (10 ^ 400)) (VInt 4) H00 eq_refl eq_refl)
      as (_ & Hint & _).
    destruct (Hint (10 ^ 400) 4 eq_refl eq_refl) as (_ & Hover & _).
    apply Hover; first [lia | reflexivity].
Defined.

(** C6, as stated, fails where the interest entry is -1, and where an
    entry is an int beyond the float range: index 0 is in bounds of both
    sequences, yet [iscr] raises ZeroDivisionError, or OverflowError,
    instead of returning a value. *)
Lemma iscr_minus_one_raises :
  entry_at Scenario.coverage_minus_one "profit_before_interest_tax_deprec" 0
  = Some (VInt 9)
  ∧ entry_at Scenario.coverage_minus_one "interest_expenses" 0
    = Some (VInt (-1))
  ∧ iscr Scenario.coverage_minus_one 0 = Raise ZeroDivisionError
  ∧ ¬ returns (iscr Scenario.coverage_minus_one 0)
  ∧ entry_at Scenario.coverage_beyond "profit_before_interest_tax_deprec" 0
    = Some (VInt (10 ^ 400))
  ∧ entry_at Scenario.coverage_beyond "interest_expenses" 0 = Some (VInt 4)
  ∧ iscr Scenario.coverage_beyond 0 = Raise OverflowError.
Proof.
  assert (H : iscr Scenario.coverage_minus_one 0 = Raise ZeroDivisionError)
    by (vm_compute; reflexivity).
  repeat split; try (vm_compute; reflexivity).
  intros [v Hv]. rewrite H in Hv. discriminate.
Qed.

(** * The borrowing ratio *)

Section Borrowing.

Variable data : document.
Variable idx : Z.

(** The else branch: [bs] absent, not a list, or too short. *)
Lemma total_borrowing_default :
  (∀ l, data !! "bs" = Some (VList l) → Z.of_nat (length l) ≤ idx) →
  total_borrowing data idx = Ok (VFloat 0).
Proof.
  intros H. unfold total_borrowing.
  destruct (data !! "bs") as [bs|] eqn:Hbs; py_run; [|reflexivity].
  destruct bs as [| | | | |l|]; cbn [Py.is_list]; py_run; try reflexivity.
  cbn [Py.len]. py_run.
  destruct (Z.ltb_spec idx (Z.of_nat (length l))); [|reflexivity].
  specialize (H l eq_refl). lia.
Qed.

(** The then branch, entered for every index below the length. *)
Lemma total_borrowing_guarded l :
  data !! "bs" = Some (VList l) → idx < Z.of_nat (length l) →
  total_borrowing data idx =
    (entry ← Py.getitem_int (VList l) idx;
     long_list ← Py.getitem_str entry "long_term_borrowings";
     long_term_borrowings ← Py.sum long_list;
     entry' ← Py.getitem_int (VList l) idx;
     short_list ← Py.getitem_str entry' "short_term_borrowings";
     short_term_borrowings ← Py.sum short_list;
     total_rev ← total_revenue data idx;
     if negb (Py.eq_int total_rev 0) then
       borrowings ← Py.add long_term_borrowings short_term_borrowings;
       Py.truediv borrowings total_rev
     else Ok VNone).
Proof.
  intros Hbs Hlt. unfold total_borrowing. py_run.
  cbn [Py.is_list Py.len]. py_run.
  destruct (Z.ltb_spec idx (Z.of_nat (length l))); [|lia].
  py_run. reflexivity.
Qed.

(** Once an entry is selected and the revenue is the missing sentinel,
    the body reads and sums both borrowings, adds the sums and then fails
    dividing. *)
Lemma borrowing_body_missing entry :
  (long_list ← Py.getitem_str entry "long_term_borrowings";
   long_term_borrowings ← Py.sum long_list;
   short_list ← Py.getitem_str entry "short_term_borrowings";
   short_term_borrowings ← Py.sum short_list;
   total_rev ← Ok VNone;
   if negb (Py.eq_int total_rev 0) then
     borrowings ← Py.add long_term_borrowings short_term_borrowings;
     Py.truediv borrowings total_rev
   else Ok VNone)
  = (long_list ← Py.getitem_str entry "long_term_borrowings";
     long_term_borrowings ← Py.sum long_list;
     short_list ← Py.getitem_str entry "short_term_borrowings";
     short_term_borrowings ← Py.sum short_list;
     _ ← Py.add long_term_borrowings short_term_borrowings;
     Raise TypeError).
Proof.
  destruct (Py.getitem_str entry "long_term_borrowings") as [a|]; py_run;
    [|reflexivity].
  destruct (Py.sum a) as [s1|] eqn:H1; py_run; [|reflexivity].
  destruct (Py.getitem_str entry "short_term_borrowings") as [b|]; py_run;
    [|reflexivity].
  destruct (Py.sum b) as [s2|] eqn:H2; py_run; [|reflexivity].
  cbn [Py.eq_int Py.as_num negb].
  destruct (Py.add s1 s2) as [c|]; py_run; [|reflexivity].
  apply truediv_missing.
Qed.

Lemma total_borrowing_missing_revenue l entry :
  data !! "bs" = Some (VList l) → idx < Z.of_nat (length l) →
  Py.getitem_int (VList l) idx = Ok entry →
  total_revenue data idx = Ok VNone →
  total_borrowing data idx =
    (long_list ← Py.getitem_str entry "long_term_borrowings";
     long_term_borrowings ← Py.sum long_list;
     short_list ← Py.getitem_str entry "short_term_borrowings";
     short_term_borrowings ← Py.sum short_list;
     _ ← Py.add long_term_borrowings short_term_borrowings;
     Raise TypeError).
Proof.
  intros Hbs Hlt He Hr.
  rewrite (total_borrowing_guarded _ Hbs Hlt), He, Hr. py_run.
  apply borrowing_body_missing.
Qed.

Lemma bind_raises {A B} (m : result A) (f : A → result B) :
  (∀ a, raises (f a)) → raises (m ≫= f).
Proof.
  intros H. destruct m as [a|e]; [apply H | exists e; reflexivity].
Qed.

(** A negative index is never answered: below the list it is an
    IndexError, inside it the revenue is missing and the division fails,
    if nothing before it does. *)
Lemma total_borrowing_negative_raises l :
  data !! "bs" = Some (VList l) → idx < 0 → raises (total_borrowing data idx).
Proof.
  intros Hbs Hneg.
  assert (Hlt : idx < Z.of_nat (length l)) by lia.
  destruct (Z.le_gt_cases (- Z.of_nat (length l)) idx) as [Hin | Hout].
  - destruct (getitem_int_list_negative l idx (conj Hin Hneg))
      as (entry & _ & He).
    rewrite (total_borrowing_missing_revenue _ _ Hbs Hlt He
               (total_revenue_negative _ _ Hneg)).
    repeat (apply bind_raises; intros ?). exists TypeError. reflexivity.
  - rewrite (total_borrowing_guarded _ Hbs Hlt).
    unfold Py.getitem_int. rewrite seq_pos_below by lia.
    exists IndexError. reflexivity.
Qed.

(** The ratio, for an entry in bounds that holds both borrowings and a
    revenue that [total_revenue] returns: the Python expression
    (sum(long) + sum(short)) / revenue behind its guard. *)
Lemma total_borrowing_ratio l entry long short r :
  data !! "bs" = Some (VList l) →
  0 ≤ idx → l !! Z.to_nat idx = Some (VDict entry) →
  entry !! "long_term_borrowings" = Some long →
  entry !! "short_term_borrowings" = Some short →
  total_revenue data idx = Ok r →
  total_borrowing data idx = borrowing_ratio long short r.
Proof.
  intros Hbs H0 He Hl Hs Hr.
  assert (Hlt : idx < Z.of_nat (length l)).
  { apply lookup_lt_Some in He. lia. }
  rewrite (total_borrowing_guarded _ Hbs Hlt), (getitem_int_list _ _ _ H0 He).
  py_run. unfold borrowing_ratio, guarded_quotient.
  destruct (Py.sum long) as [s1|]; py_run; [|reflexivity].
  destruct (Py.sum short) as [s2|]; py_run; [|reflexivity].
  rewrite Hr. py_run. reflexivity.
Qed.

(** The same for borrowings and a revenue that are ints: the sums are
    exact, the quotient is rounded once, and a quotient beyond the float
    range is an OverflowError. *)
Lemma total_borrowing_ints l entry ls ss z :
  data !! "bs" = Some (VList l) →
  0 ≤ idx → l !! Z.to_nat idx = Some (VDict entry) →
  entry !! "long_term_borrowings" = Some (VList (VInt <$> ls)) →
  entry !! "short_term_borrowings" = Some (VList (VInt <$> ss)) →
  total_revenue data idx = Ok (VInt z) →
  total_borrowing data idx =
    if z =? 0 then Ok VNone
    else if is_infinity (Py.int_quotient (total ls + total ss) z)
    then Raise OverflowError
    else Ok (VFloat (Py.int_quotient (total ls + total ss) z)).
Proof.
  intros Hbs H0 He Hl Hs Hr.
  rewrite (total_borrowing_ratio _ _ _ _ _ Hbs H0 He Hl Hs Hr).
  unfold borrowing_ratio. rewrite !sum_ints. py_run.
  apply guarded_quotient_ints.
Qed.

End Borrowing.

(** C4: on the boundary document of the specification ([bs] present, a
    sequence, index 0 in bounds, [financials] absent) [total_borrowing]
    returns neither a ratio nor the missing sentinel: it divides by
    [None] and raises TypeError.  One position below the sequence start
    it does not return 0.0 either. *)
Theorem total_borrowing_boundary_raises :
  total_borrowing Scenario.boundary 0 = Raise TypeError
  ∧ total_revenue Scenario.boundary 0 = Ok VNone
  ∧ total_borrowing Scenario.aligned (-1) = Raise TypeError
  ∧ total_borrowing Scenario.aligned (-2) = Raise IndexError.
Proof. repeat split; vm_compute; reflexivity. Qed.

(** * The borrowing-to-revenue flag *)

Section RatioFlag.

Variable data : document.
Variable idx : Z.

(** The else branch: [total_revenue] absent, not a list, or too short. *)
Lemma borrowing_to_revenue_flag_default :
  (∀ l, data !! "total_revenue" = Some (VList l) →
        Z.of_nat (length l) ≤ idx) →
  borrowing_to_revenue_flag data idx = Ok AMBER.
Proof.
  intros H. unfold borrowing_to_revenue_flag.
  destruct (data !! "total_revenue") as [tr|] eqn:Htr; py_run; [|reflexivity].
  destruct tr as [| | | | |l|]; cbn [Py.is_list]; py_run; try reflexivity.
  cbn [Py.len]. py_run.
  destruct (Z.ltb_spec idx (Z.of_nat (length l))); [|reflexivity].
  specialize (H l eq_refl). lia.
Qed.

(** The then branch, entered for every index below the length. *)
Lemma borrowing_to_revenue_flag_guarded l :
  data !! "total_revenue" = Some (VList l) → idx < Z.of_nat (length l) →
  borrowing_to_revenue_flag data idx =
    (total_borrowings ← total_borrowing data idx;
     total_revenue_value ← Py.getitem_int (VList l) idx;
     ratio ← Py.truediv total_borrowings total_revenue_value;
     c ← Py.le ratio (VFloat 0.25);
     if c : bool then Ok GREEN else Ok AMBER).
Proof.
  intros Htr Hlt. unfold borrowing_to_revenue_flag. py_run.
  cbn [Py.is_list Py.len]. py_run.
  destruct (Z.ltb_spec idx (Z.of_nat (length l))); [|lia].
  py_run. reflexivity.
Qed.

(** The classification, when the division of the borrowing ratio by the
    entry of [total_revenue] returns: GREEN exactly when the float it
    returns is at most 0.25. *)
Lemma borrowing_to_revenue_flag_ratio l b r q :
  data !! "total_revenue" = Some (VList l) →
  Py.getitem_int (VList l) idx = Ok r → idx < Z.of_nat (length l) →
  total_borrowing data idx = Ok b →
  Py.truediv b r = Ok (VFloat q) →
  borrowing_to_revenue_flag data idx =
    Ok (if (q <=? 0.25)%float then GREEN else AMBER).
Proof.
  intros Htr Hr Hlt Hb Hq.
  rewrite (borrowing_to_revenue_flag_guarded _ Htr Hlt), Hb, Hr. py_run.
  rewrite Hq. py_run. rewrite le_quarter. py_run.
  destruct (q <=? 0.25)%float; reflexivity.
Qed.

End RatioFlag.

(** C3: on the boundary scenario of the specification (total_revenue =
    [100], bs = [{long: [10], short: [15]}], index 0) the flag is not
    GREEN: [total_borrowing] divides the borrowings 25 by the missing
    revenue and the TypeError propagates.  With total_revenue = [0] the
    unguarded division raises ZeroDivisionError. *)
Theorem borrowing_to_revenue_flag_boundary_raises :
  borrowing_to_revenue_flag Scenario.boundary 0 = Raise TypeError
  ∧ borrowing_to_revenue_flag Scenario.zero_revenue 0
    = Raise ZeroDivisionError.
Proof. split; vm_compute; reflexivity. Qed.

(** * Negative indices *)

(** C10, as amended: with [bs] a non-empty list and -len(bs) <= index < 0,
    [total_borrowing] passes its bounds check, selects the entry at
    position len(bs) + index, reads and sums that entry's borrowings, adds
    the two sums and then raises TypeError on the missing revenue; it
    returns nothing, the default 0.0 included.  [borrowing_to_revenue_flag]
    passes its check in the same way and divides by the entry of
    [total_revenue] at position len + index.  [total_revenue] and [iscr]
    reject every negative index, returning the missing sentinel and
    0.0. *)
Theorem negative_index (data : document) (idx : Z) :
  idx < 0 →
  (∀ l, data !! "bs" = Some (VList l) →
        - Z.of_nat (length l) ≤ idx →
        ∃ entry,
          l !! Z.to_nat (Z.of_nat (length l) + idx) = Some entry
          ∧ total_borrowing data idx =
              (long_list ← Py.getitem_str entry "long_term_borrowings";
               long_term_borrowings ← Py.sum long_list;
               short_list ← Py.getitem_str entry "short_term_borrowings";
               short_term_borrowings ← Py.sum short_list;
               _ ← Py.add long_term_borrowings short_term_borrowings;
               Raise TypeError)
          ∧ raises (total_borrowing data idx)
          ∧ total_borrowing data idx ≠ Ok (VFloat 0))
  ∧ (∀ l, data !! "total_revenue" = Some (VList l) →
          - Z.of_nat (length l) ≤ idx →
          ∃ entry,
            l !! Z.to_nat (Z.of_nat (length l) + idx) = Some entry
            ∧ borrowing_to_revenue_flag data idx =
                (total_borrowings ← total_borrowing data idx;
                 ratio ← Py.truediv total_borrowings entry;
                 c ← Py.le ratio (VFloat 0.25);
                 if c : bool then Ok GREEN else Ok AMBER))
  ∧ total_revenue data idx = Ok VNone
  ∧ iscr data idx = Ok (VFloat 0).
Proof.
  intros Hneg. split; [|split; [|split]].
  - intros l Hbs Hin.
    destruct (getitem_int_list_negative l idx (conj Hin Hneg))
      as (entry & Hl & He).
    exists entry. rewrite Z.add_comm in Hl.
    assert (Hlt : idx < Z.of_nat (length l)) by lia.
    assert (Hraises := total_borrowing_negative_raises data idx l Hbs Hneg).
    repeat split; try assumption.
    + apply (total_borrowing_missing_revenue _ _ _ _ Hbs Hlt He).
      apply total_revenue_negative, Hneg.
    + destruct Hraises as [e ->]. discriminate.
  - intros l Htr Hin.
    destruct (getitem_int_list_negative l idx (conj Hin Hneg))
      as (entry & Hl & He).
    exists entry. rewrite Z.add_comm in Hl. split; [exact Hl|].
    rewrite (borrowing_to_revenue_flag_guarded _ _ _ Htr) by lia.
    rewrite He.
    destruct (total_borrowing data idx); py_run; reflexivity.
  - apply total_revenue_negative, Hneg.
  - apply iscr_negative, Hneg.
Qed.

Lemma negative_index_witness :
  total_borrowing Scenario.aligned (-1) = Raise TypeError
  ∧ total_revenue Scenario.aligned (-1) = Ok VNone
  ∧ iscr Scenario.aligned (-1) = Ok (VFloat 0)
  ∧ borrowing_to_revenue_flag Scenario.zero_revenue (-1)
    = Raise ZeroDivisionError.
Proof.
  assert (Hneg : -1 < 0) by lia.
  destruct (negative_index Scenario.aligned (-1) Hneg)
    as (Hb & _ & Hr & Hi).
  destruct (negative_index Scenario.zero_revenue (-1) Hneg)
    as (_ & Hf & _ & _).
  split; [|split; [|split]].
  - destruct (Hb [Scenario.balance [10] [15]]) as (entry & He & Heq & _).
    + vm_compute. reflexivity.
    + simpl. lia.
    + rewrite Heq. injection He as <-. vm_compute. reflexivity.
  - exact Hr.
  - exact Hi.
  - destruct (Hf [VInt 0]) as (entry & He & Heq).
    + vm_compute. reflexivity.
    + simpl. lia.
    + rewrite Heq. injection He as <-. vm_compute. reflexivity.
Defined.

(** C10, as stated, fails: for bs = [{long: [10], short: [15]}] with a
    period of netRevenue 100 and index -1 (so -len(bs) <= index < 0) no
    borrowing ratio is computed for the selected entry; the call raises
    TypeError. *)
Lemma total_borrowing_negative_no_ratio :
  Scenario.aligned !! "bs" = Some (VList [Scenario.balance [10] [15]])
  ∧ total_borrowing Scenario.aligned 0 = Ok (VFloat 0.25)
  ∧ total_borrowing Scenario.aligned (-1) = Raise TypeError
  ∧ ¬ returns (total_borrowing Scenario.aligned (-1)).
Proof.
  assert (H : total_borrowing Scenario.aligned (-1) = Raise TypeError)
    by (vm_compute; reflexivity).
  repeat split; try (vm_compute; reflexivity).
  intros [v Hv]. rewrite H in Hv. discriminate.
Qed.

(** * The range of the classifiers *)

Lemma flag_of_test {A} (m : result A) (k : A → result bool)
  (yes no f : FLAGS) :
  (a ← m; c ← k a; if c : bool then Ok yes else Ok no) = Ok f →
  f = yes ∨ f = no.
Proof.
  intros H. apply bind_returns in H as (a & _ & H).
  apply bind_returns in H as (c & _ & H).
  destruct c; injection H as <-; auto.
Qed.

Lemma iscr_flag_range data idx f :
  iscr_flag data idx = Ok f → f = GREEN ∨ f = RED.
Proof. apply flag_of_test. Qed.

Lemma total_revenue_5cr_flag_range data idx f :
  total_revenue_5cr_flag data idx = Ok f → f = GREEN ∨ f = RED.
Proof. apply flag_of_test. Qed.

Lemma borrowing_to_revenue_flag_range data idx f :
  borrowing_to_revenue_flag data idx = Ok f → f = GREEN ∨ f = AMBER.
Proof.
  unfold borrowing_to_revenue_flag. intros H.
  apply bind_returns in H as (in_data & _ & H).
  apply bind_returns in H as (guard & _ & H).
  destruct guard; [|injection H as <-; auto].
  apply bind_returns in H as (b & _ & H).
  apply bind_returns in H as (revenues & _ & H).
  apply bind_returns in H as (r & _ & H).
  apply bind_returns in H as (ratio & _ & H).
  apply bind_returns in H as (c & _ & H).
  destruct c; injection H as <-; auto.
Qed.

(** C9: whatever one of the three classifiers returns is RED = 0,
    GREEN = 1 or AMBER = 2; MEDIUM_RISK = 3 and WHITE = 4 are never
    produced. *)
Theorem classifier_range (c : classifier) (data : document) (idx : Z) f :
  classify c data idx = Ok f →
  (f = RED ∨ f = GREEN ∨ f = AMBER)
  ∧ 0 ≤ FLAGS_value f ≤ 2
  ∧ f ≠ MEDIUM_RISK ∧ f ≠ WHITE.
Proof.
  intros H.
  assert (Hf : f = RED ∨ f = GREEN ∨ f = AMBER).
  { destruct c; cbn [classify] in H.
    - apply total_revenue_5cr_flag_range in H. tauto.
    - apply borrowing_to_revenue_flag_range in H. tauto.
    - apply iscr_flag_range in H. tauto. }
  split; [exact Hf|].
  destruct Hf as [-> | [-> | ->]]; cbn [FLAGS_value];
    repeat split; try lia; discriminate.
Qed.

Lemma classifier_range_witness :
  (GREEN = RED ∨ GREEN = GREEN ∨ GREEN = AMBER)
  ∧ 0 ≤ FLAGS_value GREEN ≤ 2
  ∧ GREEN ≠ MEDIUM_RISK ∧ GREEN ≠ WHITE.
Proof.
  apply (classifier_range ISCR_FLAG Scenario.coverage 0 GREEN).
  vm_compute. reflexivity.
Defined.


(** * Which calls return *)

Lemma forallb_lookup {A} (f : A → bool) (l : list A) i x :
  forallb f l = true → l !! i = Some x → f x = true.
Proof.
  revert i. induction l as [|y l IH]; intros i Hall Hx; [discriminate|].
  cbn [forallb] in Hall. apply andb_prop in Hall as [Hy Hl].
  destruct i as [|i]; [injection Hx as <-; exact Hy | exact (IH i Hl Hx)].
Qed.

Lemma well_shaped_fields (data : document) :
  well_shaped data = true →
  opt_all financials_ok (data !! "financials") = true
  ∧ opt_all bs_ok (data !! "bs") = true
  ∧ opt_all series_ok (data !! "profit_before_interest_tax_deprec") = true
  ∧ opt_all series_ok (data !! "interest_expenses") = true
  ∧ opt_all series_ok (data !! "total_revenue") = true.
Proof.
  unfold well_shaped. intros H.
  repeat (apply andb_prop in H as [H ?]). auto.
Qed.

Lemma series_of_shaped (data : document) key :
  opt_all series_ok (data !! key) = true →
  ∃ l, series_of data key = Some l ∧ forallb Py.is_number l = true.
Proof.
  unfold series_of. destruct (data !! key) as [v|]; cbn [opt_all].
  - destruct v as [| | | | |l|]; try discriminate. cbn [series_ok]. eauto.
  - exists []. auto.
Qed.

Lemma series_of_entry (data : document) key l idx v :
  series_of data key = Some l →
  entry_at data key idx = Some v →
  0 ≤ idx ∧ l !! Z.to_nat idx = Some v.
Proof.
  unfold series_of, entry_at.
  destruct (data !! key) as [[| | | | |l'|]|]; try discriminate.
  intros [= <-]. destruct (Z.leb_spec 0 idx); [auto | discriminate].
Qed.

Section Shaped.

Variable data : document.
Variable idx : Z.

(** On shaped [financials] the revenue is a number or the sentinel. *)
Lemma total_revenue_shaped :
  opt_all financials_ok (data !! "financials") = true →
  ∃ r, total_revenue data idx = Ok r
       ∧ (r = VNone ∨ Py.is_number r = true).
Proof.
  intros Hok.
  destruct (data !! "financials") as [fin|] eqn:Hfin;
    [|exists VNone; split; [apply total_revenue_absent, Hfin | auto]].
  cbn [opt_all] in Hok.
  destruct fin as [| | | | |l|]; try discriminate. cbn [financials_ok] in Hok.
  destruct (Z.lt_ge_cases idx 0) as [Hneg | H0];
    [exists VNone; split; [apply total_revenue_negative, Hneg | auto]|].
  destruct (Z.lt_ge_cases idx (Z.of_nat (length l))) as [Hlt | Hge];
    [|exists VNone; split; [eapply total_revenue_beyond; eassumption | auto]].
  destruct (lookup_lt_is_Some_2 l (Z.to_nat idx)) as [e He]; [lia|].
  assert (Hentry : entry_at data "financials" idx = Some e).
  { unfold entry_at. rewrite Hfin.
    destruct (Z.leb_spec 0 idx); [exact He | lia]. }
  rewrite (total_revenue_entry _ _ _ Hentry).
  pose proof (forallb_lookup _ _ _ _ Hok He) as Hp.
  destruct e as [| | | | | |e]; try discriminate. cbn [period_ok] in Hp.
  destruct (e !! "pnl") as [pnl|] eqn:Hpnl; py_run; [|eauto].
  cbn [opt_all] in Hp.
  destruct pnl as [| | | | | |p]; try discriminate. cbn [pnl_ok] in Hp.
  destruct (p !! "lineItems") as [li|] eqn:Hli; py_run; [|eauto].
  cbn [opt_all] in Hp.
  destruct li as [| | | | | |li]; try discriminate.
  cbn [line_items_ok] in Hp.
  destruct (li !! "netRevenue") as [v|] eqn:Hv; py_run; eauto.
Qed.

Lemma total_revenue_5cr_flag_returns :
  opt_all financials_ok (data !! "financials") = true →
  returns (total_revenue_5cr_flag data idx).
Proof.
  intros Hok. destruct (total_revenue_shaped Hok) as (r & Hr & [-> | Hnum]).
  - rewrite (total_revenue_5cr_flag_missing _ _ Hr). eexists. reflexivity.
  - unfold Py.is_number in Hnum.
    destruct (Py.as_num r) as [x|] eqn:Hx; [|discriminate].
    rewrite (total_revenue_5cr_flag_number _ _ _ _ Hr Hx).
    eexists. reflexivity.
Qed.

Lemma first_standalone_periods l k :
  forallb period_ok l = true → returns (first_standalone k l).
Proof.
  revert k. induction l as [|e l IH]; intros k Hall.
  - exists 0. reflexivity.
  - cbn [forallb] in Hall. apply andb_prop in Hall as [He Hl].
    destruct e as [| | | | | |d]; try discriminate.
    cbn [first_standalone].
    destruct (d !! "nature") as [n|] eqn:Hn; py_run.
    + destruct (Py.eq_str n "STANDALONE"); [eexists; reflexivity|].
      apply IH, Hl.
    + cbn [Py.eq_str]. apply IH, Hl.
Qed.

Lemma latest_financial_index_returns :
  opt_all financials_ok (data !! "financials") = true →
  is_Some (data !! "financials") → returns (latest_financial_index data).
Proof.
  intros Hok [fin Hfin]. rewrite Hfin in Hok. cbn [opt_all] in Hok.
  destruct fin as [| | | | |l|]; try discriminate.
  unfold latest_financial_index. py_run. cbn [Py.iter]. py_run.
  apply first_standalone_periods, Hok.
Qed.


Lemma entry_at_series key l v :
  series_of data key = Some l → 0 ≤ idx → l !! Z.to_nat idx = Some v →
  entry_at data key idx = Some v.
Proof.
  unfold series_of, entry_at. intros Hl H0 Hv.
  destruct (data !! key) as [[| | | | |l'|]|]; try discriminate.
  - injection Hl as ->. destruct (Z.leb_spec 0 idx); [exact Hv | lia].
  - injection Hl as <-. destruct (Z.to_nat idx); discriminate.
Qed.

Lemma entry_at_series_of key v :
  entry_at data key idx = Some v →
  ∃ l, series_of data key = Some l ∧ 0 ≤ idx ∧ l !! Z.to_nat idx = Some v.
Proof.
  intros H. apply entry_at_list in H as (l & Hl & H0 & Hv & _).
  exists l. unfold series_of. rewrite Hl. auto.
Qed.

(** [iscr] returns, and returns a float, when the quotient of the entries
    at the index, if there are any, has a value. *)
Lemma iscr_returns_float :
  opt_all series_ok (data !! "profit_before_interest_tax_deprec") = true →
  opt_all series_ok (data !! "interest_expenses") = true →
  (∀ p q, entry_at data "profit_before_interest_tax_deprec" idx = Some p →
          entry_at data "interest_expenses" idx = Some q →
          returns (offset_quotient p q)) →
  ∃ v, iscr data idx = Ok (VFloat v).
Proof.
  intros HPok HIok Hpq.
  destruct (series_of_shaped _ _ HPok) as (P & HP & HPn).
  destruct (series_of_shaped _ _ HIok) as (I & HI & HIn).
  destruct (Z.lt_ge_cases idx 0) as [Hneg | H0];
    [exists 0%float; apply (iscr_out_of_range data idx _ _ HP HI); auto|].
  destruct (Z.lt_ge_cases idx
              (Z.min (Z.of_nat (length P)) (Z.of_nat (length I))))
    as [Hlt | Hge];
    [|exists 0%float; apply (iscr_out_of_range data idx _ _ HP HI); auto].
  destruct (lookup_lt_is_Some_2 P (Z.to_nat idx)) as [p Hp]; [lia|].
  destruct (lookup_lt_is_Some_2 I (Z.to_nat idx)) as [q Hq]; [lia|].
  destruct (Hpq p q (entry_at_series _ _ _ HP H0 Hp)
              (entry_at_series _ _ _ HI H0 Hq)) as [v Hv].
  destruct (offset_quotient_float _ _ _ Hv) as [f ->].
  exists f. rewrite (iscr_in_range data idx _ _ _ _ HP HI H0 Hp Hq).
  exact Hv.
Qed.

(** For two int entries [iscr] returns exactly when the interest is not
    -1 and the quotient is within the float range. *)
Lemma iscr_ints_returns a b :
  entry_at data "profit_before_interest_tax_deprec" idx = Some (VInt a) →
  entry_at data "interest_expenses" idx = Some (VInt b) →
  returns (iscr data idx)
  ↔ b ≠ -1 ∧ is_infinity (Py.int_quotient (a + 1) (b + 1)) = false.
Proof.
  intros Hp Hq.
  apply entry_at_series_of in Hp as (P & HP & H0 & Hp).
  apply entry_at_series_of in Hq as (I & HI & _ & Hq).
  rewrite (iscr_in_range data idx _ _ _ _ HP HI H0 Hp Hq),
    (offset_quotient_ints (VInt a) (VInt b) a b eq_refl eq_refl).
  destruct (Z.eqb_spec (b + 1) 0) as [E | E].
  - split; [intros [v Hv]; discriminate | intros [Hb _]; lia].
  - destruct (is_infinity (Py.int_quotient (a + 1) (b + 1))).
    + split; [intros [v Hv]; discriminate | intros [_ Hf]; discriminate].
    + split; [intros _; split; [lia | reflexivity] | intros _; eexists;
                                                     reflexivity].
Qed.

Lemma iscr_flag_returns v :
  iscr data idx = Ok (VFloat v) → returns (iscr_flag data idx).
Proof.
  intros H. unfold iscr_flag. rewrite H. py_run. rewrite ge_two. py_run.
  destruct (if is_finite v then _ else _); eexists; reflexivity.
Qed.

(** Whatever [total_borrowing] returns is a float or the sentinel, and
    the sentinel only for a revenue that compares equal to zero. *)
Lemma total_borrowing_outcome v :
  total_borrowing data idx = Ok v →
  (∃ q, v = VFloat q)
  ∨ (v = VNone
     ∧ ∃ r, total_revenue data idx = Ok r ∧ Py.eq_int r 0 = true).
Proof.
  unfold total_borrowing. intros H.
  apply bind_returns in H as (in_data & _ & H).
  apply bind_returns in H as (guard & _ & H).
  destruct guard; [|injection H as <-; left; eauto].
  apply bind_returns in H as (bs & _ & H).
  apply bind_returns in H as (entry & _ & H).
  apply bind_returns in H as (long & _ & H).
  apply bind_returns in H as (s1 & _ & H).
  apply bind_returns in H as (bs' & _ & H).
  apply bind_returns in H as (entry' & _ & H).
  apply bind_returns in H as (short & _ & H).
  apply bind_returns in H as (s2 & _ & H).
  apply bind_returns in H as (r & Hr & H).
  destruct (Py.eq_int r 0) eqn:E; cbn [negb] in H.
  - injection H as <-. right. split; [reflexivity|]. exists r. auto.
  - apply bind_returns in H as (b & _ & H).
    left. apply (truediv_float _ _ _ H).
Qed.

(** [total_borrowing] returns for an index that is not negative when the
    ratio of the entry's borrowings to the revenue has a value. *)
Lemma total_borrowing_returns r :
  opt_all bs_ok (data !! "bs") = true →
  0 ≤ idx →
  total_revenue data idx = Ok r →
  (∀ e long short,
      entry_at data "bs" idx = Some (VDict e) →
      e !! "long_term_borrowings" = Some long →
      e !! "short_term_borrowings" = Some short →
      returns (borrowing_ratio long short r)) →
  returns (total_borrowing data idx).
Proof.
  intros Hok H0 Hr Hratio.
  assert (Hdefault :
    (∀ l, data !! "bs" = Some (VList l) → Z.of_nat (length l) ≤ idx) →
    returns (total_borrowing data idx)).
  { intros H. exists (VFloat 0). apply total_borrowing_default, H. }
  destruct (data !! "bs") as [bs|] eqn:Hbs;
    [|apply Hdefault; intros l; discriminate].
  cbn [opt_all] in Hok.
  destruct bs as [| | | | |l|]; try discriminate. cbn [bs_ok] in Hok.
  destruct (Z.lt_ge_cases idx (Z.of_nat (length l))) as [Hlt | Hge];
    [|apply Hdefault; intros l' [= <-]; exact Hge].
  destruct (lookup_lt_is_Some_2 l (Z.to_nat idx)) as [e He]; [lia|].
  pose proof (forallb_lookup _ _ _ _ Hok He) as Hb.
  destruct e as [| | | | | |e]; try discriminate. cbn [balance_ok] in Hb.
  destruct (e !! "long_term_borrowings") as [long|] eqn:Hlong;
    [|discriminate].
  destruct (e !! "short_term_borrowings") as [short|] eqn:Hshort;
    [|discriminate].
  assert (Hentry : entry_at data "bs" idx = Some (VDict e)).
  { unfold entry_at. rewrite Hbs.
    destruct (Z.leb_spec 0 idx); [exact He | lia]. }
  rewrite (total_borrowing_ratio data idx _ _ _ _ _
             Hbs H0 He Hlong Hshort Hr).
  apply (Hratio e long short Hentry Hlong Hshort).
Qed.

(** For int borrowings and an int revenue [total_borrowing] returns
    exactly when the revenue is zero or the quotient is within the float
    range. *)
Lemma total_borrowing_ints_returns e ls ss z :
  entry_at data "bs" idx = Some (VDict e) →
  e !! "long_term_borrowings" = Some (VList (VInt <$> ls)) →
  e !! "short_term_borrowings" = Some (VList (VInt <$> ss)) →
  total_revenue data idx = Ok (VInt z) →
  returns (total_borrowing data idx)
  ↔ z = 0 ∨ is_infinity (Py.int_quotient (total ls + total ss) z) = false.
Proof.
  intros He Hl Hs Hr.
  apply entry_at_list in He as (l & Hbs & H0 & He & _).
  rewrite (total_borrowing_ints data idx _ _ _ _ _ Hbs H0 He Hl Hs Hr).
  destruct (Z.eqb_spec z 0) as [E | E].
  - split; [auto | intros _; eexists; reflexivity].
  - destruct (is_infinity (Py.int_quotient (total ls + total ss) z)).
    + split; [intros [v Hv]; discriminate|].
      intros [Hz | Hf]; [contradiction | discriminate].
    + split; [auto | intros _; eexists; reflexivity].
Qed.

(** The flag returns for an index that is not negative when
    [total_borrowing] yields a number and the entry of [total_revenue] can
    divide a float. *)
Lemma borrowing_to_revenue_flag_returns :
  opt_all series_ok (data !! "total_revenue") = true →
  0 ≤ idx →
  (∃ b, total_borrowing data idx = Ok b ∧ Py.is_number b = true) →
  (∀ r, entry_at data "total_revenue" idx = Some r →
        float_divisor r = true) →
  returns (borrowing_to_revenue_flag data idx).
Proof.
  intros Hok H0 (b & Hb & Hnum) Hnz.
  assert (Hdefault :
    (∀ l, data !! "total_revenue" = Some (VList l) →
          Z.of_nat (length l) ≤ idx) →
    returns (borrowing_to_revenue_flag data idx)).
  { intros H. exists AMBER. apply borrowing_to_revenue_flag_default, H. }
  destruct (data !! "total_revenue") as [tr|] eqn:Htr;
    [|apply Hdefault; intros l; discriminate].
  cbn [opt_all] in Hok.
  destruct tr as [| | | | |l|]; try discriminate. cbn [series_ok] in Hok.
  destruct (Z.lt_ge_cases idx (Z.of_nat (length l))) as [Hlt | Hge];
    [|apply Hdefault; intros l' [= <-]; exact Hge].
  destruct (lookup_lt_is_Some_2 l (Z.to_nat idx)) as [r Hr]; [lia|].
  assert (Hentry : entry_at data "total_revenue" idx = Some r).
  { unfold entry_at. rewrite Htr.
    destruct (Z.leb_spec 0 idx); [exact Hr | lia]. }
  specialize (Hnz r Hentry).
  destruct (total_borrowing_outcome _ Hb) as [[f ->] | [-> _]];
    [|discriminate].
  destruct (truediv_float_divisor f r Hnz) as [q Hq].
  rewrite (borrowing_to_revenue_flag_ratio data idx l _ r q Htr
             (getitem_int_list _ _ _ H0 Hr) Hlt Hb Hq).
  eexists. reflexivity.
Qed.

End Shaped.


(** On shaped [financials] the two cases of revenue extraction are all
    there is: the chain resolves or one of its links is absent. *)
Lemma net_revenue_chain_cases (data : document) (idx : Z) :
  opt_all financials_ok (data !! "financials") = true →
  (∃ v, net_revenue_chain data idx = Some v ∧ Py.is_number v = true)
  ∨ link_absent data idx.
Proof.
  intros Hok.
  destruct (data !! "financials") as [fin|] eqn:Hfin;
    [|right; apply financials_absent, Hfin].
  cbn [opt_all] in Hok.
  destruct fin as [| | | | |l|]; try discriminate. cbn [financials_ok] in Hok.
  destruct (Z.lt_ge_cases idx 0) as [Hneg | H0];
    [right; apply index_negative, Hneg|].
  destruct (Z.lt_ge_cases idx (Z.of_nat (length l))) as [Hlt | Hge];
    [|right; eapply index_beyond; eassumption].
  destruct (lookup_lt_is_Some_2 l (Z.to_nat idx)) as [e He]; [lia|].
  assert (Hentry : entry_at data "financials" idx = Some e).
  { unfold entry_at. rewrite Hfin.
    destruct (Z.leb_spec 0 idx); [exact He | lia]. }
  pose proof (forallb_lookup _ _ _ _ Hok He) as Hp.
  destruct e as [| | | | | |e]; try discriminate. cbn [period_ok] in Hp.
  destruct (e !! "pnl") as [pnl|] eqn:Hpnl;
    [|right; eapply pnl_absent; eassumption].
  cbn [opt_all] in Hp.
  destruct pnl as [| | | | | |p]; try discriminate. cbn [pnl_ok] in Hp.
  destruct (p !! "lineItems") as [li|] eqn:Hli;
    [|right; eapply line_items_absent; eassumption].
  cbn [opt_all] in Hp.
  destruct li as [| | | | | |li]; try discriminate.
  cbn [line_items_ok] in Hp.
  destruct (li !! "netRevenue") as [v|] eqn:Hv;
    [|right; eapply net_revenue_absent; eassumption].
  left. exists v. split; [|exact Hp].
  unfold net_revenue_chain. rewrite Hentry. simpl.
  rewrite Hpnl. simpl. rewrite Hli. simpl. exact Hv.
Qed.

(** C1, as amended: on a document whose present fields have the shapes of
    the data model, for every integer index, [total_revenue] and
    [total_revenue_5cr_flag] return a value; [latest_financial_index]
    returns when [financials] is present; [iscr] and [iscr_flag] return
    when the quotient (profit + 1) / (interest + 1) of the entries at the
    index has a value, which for two ints is exactly when the interest is
    not -1 and the quotient is within the float range; [total_borrowing]
    returns 0.0 when [bs] is absent or the index is at least its length,
    returns when the index is not negative and the ratio of the entry's
    borrowings to the revenue has a value, which for ints is exactly when
    the revenue is zero or the quotient is within the float range;
    [borrowing_to_revenue_flag] returns AMBER when [total_revenue] is
    absent or the index is at least its length, and returns a flag when
    the index is not negative, [total_borrowing] yields a number and the
    divisor [total_revenue[index]] is within the float range and not
    zero. *)
Theorem engine_returns (data : document) (idx : Z) :
  well_shaped data = true →
  returns (total_revenue data idx)
  ∧ returns (total_revenue_5cr_flag data idx)
  ∧ (is_Some (data !! "financials") →
     returns (latest_financial_index data))
  ∧ ((∀ p q, entry_at data "profit_before_interest_tax_deprec" idx = Some p →
             entry_at data "interest_expenses" idx = Some q →
             returns (offset_quotient p q)) →
     returns (iscr data idx) ∧ returns (iscr_flag data idx))
  ∧ (∀ a b,
       entry_at data "profit_before_interest_tax_deprec" idx
       = Some (VInt a) →
       entry_at data "interest_expenses" idx = Some (VInt b) →
       returns (iscr data idx)
       ↔ b ≠ -1 ∧ is_infinity (Py.int_quotient (a + 1) (b + 1)) = false)
  ∧ ((∀ l, data !! "bs" = Some (VList l) → Z.of_nat (length l) ≤ idx) →
     total_borrowing data idx = Ok (VFloat 0))
  ∧ (0 ≤ idx →
     ∀ r, total_revenue data idx = Ok r →
     (∀ e long short,
         entry_at data "bs" idx = Some (VDict e) →
         e !! "long_term_borrowings" = Some long →
         e !! "short_term_borrowings" = Some short →
         returns (borrowing_ratio long short r)) →
     returns (total_borrowing data idx))
  ∧ (∀ e ls ss z,
       entry_at data "bs" idx = Some (VDict e) →
       e !! "long_term_borrowings" = Some (VList (VInt <$> ls)) →
       e !! "short_term_borrowings" = Some (VList (VInt <$> ss)) →
       total_revenue data idx = Ok (VInt z) →
       returns (total_borrowing data idx)
       ↔ z = 0
         ∨ is_infinity (Py.int_quotient (total ls + total ss) z) = false)
  ∧ ((∀ l, data !! "total_revenue" = Some (VList l) →
           Z.of_nat (length l) ≤ idx) →
     borrowing_to_revenue_flag data idx = Ok AMBER)
  ∧ (0 ≤ idx →
     (∃ b, total_borrowing data idx = Ok b ∧ Py.is_number b = true) →
     (∀ r, entry_at data "total_revenue" idx = Some r →
           float_divisor r = true) →
     returns (borrowing_to_revenue_flag data idx)).
Proof.
  intros Hshape.
  apply well_shaped_fields in Hshape as (Hfin & Hbs & HP & HI & Htr).
  repeat apply conj.
  - destruct (total_revenue_shaped data idx Hfin) as (r & Hr & _).
    exists r. exact Hr.
  - apply total_revenue_5cr_flag_returns, Hfin.
  - apply latest_financial_index_returns, Hfin.
  - intros Hq. destruct (iscr_returns_float data idx HP HI Hq) as [v Hv].
    split; [eexists; exact Hv | apply (iscr_flag_returns _ _ _ Hv)].
  - apply iscr_ints_returns.
  - apply total_borrowing_default.
  - intros H0 r Hr Hratio.
    apply (total_borrowing_returns data idx r Hbs H0 Hr Hratio).
  - apply total_borrowing_ints_returns.
  - apply borrowing_to_revenue_flag_default.
  - apply borrowing_to_revenue_flag_returns, Htr.
Qed.

Lemma engine_returns_witness :
  returns (total_revenue Scenario.aligned 0)
  ∧ returns (total_revenue_5cr_flag Scenario.aligned 7)
  ∧ returns (latest_financial_index Scenario.aligned)
  ∧ returns (iscr Scenario.aligned 0)
  ∧ returns (iscr_flag Scenario.aligned 0)
  ∧ returns (total_borrowing Scenario.aligned 0)
  ∧ returns (borrowing_to_revenue_flag Scenario.aligned 0)
  ∧ ¬ returns (total_borrowing Scenario.beyond 0).
Proof.
  assert (Hshape : well_shaped Scenario.aligned = true)
    by (vm_compute; reflexivity).
  assert (Hshape' : well_shaped Scenario.beyond = true)
    by (vm_compute; reflexivity).
  destruct (engine_returns Scenario.aligned 0 Hshape)
    as (Hr & _ & Hl & Hi & _ & _ & Hb & _ & _ & Hf).
  destruct (engine_returns Scenario.aligned 7 Hshape)
    as (_ & H5 & _).
  destruct (engine_returns Scenario.beyond 0 Hshape')
    as (_ & _ & _ & _ & _ & _ & _ & Hints & _).
  assert (H0 : 0 ≤ 0) by lia.
  destruct Hi as [Hi1 Hi2].
  { intros p q Hp Hq. vm_compute in Hp, Hq.
    injection Hp as <-. injection Hq as <-.
    exists (VFloat 2). vm_compute. reflexivity. }
  split; [exact Hr|]. split; [exact H5|]. split; [|split; [exact Hi1|]].
  { apply Hl. vm_compute. eauto. }
  split; [exact Hi2|]. split; [|split].
  - apply (Hb H0 (VInt 100)); [vm_compute; reflexivity|].
    intros e long short He Hlong Hshort. vm_compute in He.
    injection He as <-. vm_compute in Hlong, Hshort.
    injection Hlong as <-. injection Hshort as <-.
    exists (VFloat 0.25). vm_compute. reflexivity.
  - apply (Hf H0).
    + exists (VFloat 0.25).
      split; [vm_compute; reflexivity | reflexivity].
    + intros r Hr'. vm_compute in Hr'. injection Hr' as <-. reflexivity.
  - intros Hret.
    apply (Hints (list_to_map
                    [("long_term_borrowings",
                      VList (VInt <$> [10 ^ 308; 10 ^ 308]));
                     ("short_term_borrowings", VList (VInt <$> []))])
             [10 ^ 308; 10 ^ 308] [] 1) in Hret;
      try (vm_compute; reflexivity).
    destruct Hret as [Hz | Hfin]; [lia | vm_compute in Hfin; discriminate].
Defined.

(** C1, as stated, fails: calls of the engine raise.  A zero entry of
    [total_revenue] is divided by; an absent [financials] is iterated
    over; a missing revenue is divided by; an interest entry of -1 makes
    the divisor of [iscr] zero; two borrowings of 10^308, each inside the
    float range, have a quotient beyond it; an int of 400 digits has no
    float; a [financials] of the wrong shape has no length. *)
Lemma engine_raises :
  well_shaped Scenario.zero_revenue = true
  ∧ well_shaped Scenario.empty = true
  ∧ well_shaped Scenario.coverage_minus_one = true
  ∧ well_shaped Scenario.beyond = true
  ∧ well_shaped Scenario.coverage_beyond = true
  ∧ borrowing_to_revenue_flag Scenario.zero_revenue 0
    = Raise ZeroDivisionError
  ∧ latest_financial_index Scenario.empty = Raise TypeError
  ∧ total_borrowing Scenario.boundary 0 = Raise TypeError
  ∧ iscr Scenario.coverage_minus_one 0 = Raise ZeroDivisionError
  ∧ iscr_flag Scenario.coverage_minus_one 0 = Raise ZeroDivisionError
  ∧ total_borrowing Scenario.beyond 0 = Raise OverflowError
  ∧ iscr Scenario.coverage_beyond 0 = Raise OverflowError
  ∧ iscr_flag Scenario.coverage_beyond 0 = Raise OverflowError
  ∧ total_revenue Scenario.misshapen 0 = Raise TypeError
  ∧ total_revenue_5cr_flag Scenario.misshapen 0 = Raise TypeError
  ∧ ¬ returns (borrowing_to_revenue_flag Scenario.zero_revenue 0).
Proof.
  assert (H : borrowing_to_revenue_flag Scenario.zero_revenue 0
              = Raise ZeroDivisionError) by (vm_compute; reflexivity).
  repeat split; try (vm_compute; reflexivity).
  intros [v Hv]. rewrite H in Hv. discriminate.
Qed.

(** * The evaluation pipeline *)


Section Pipeline.

Variable data : document.
Variables (idx : Z) (a b c : FLAGS).
Hypothesis Hidx : latest_financial_index data = Ok idx.
Hypothesis Ha : total_revenue_5cr_flag data idx = Ok a.
Hypothesis Hb : borrowing_to_revenue_flag data idx = Ok b.
Hypothesis Hc : iscr_flag data idx = Ok c.

Lemma probe_returns :
  probe_model_5l_profit data = Ok (<["flags" := flag_map a b c]> ∅).
Proof.
  unfold probe_model_5l_profit. rewrite Hidx, bind_Ok, Ha, bind_Ok, Hb,
    bind_Ok, Hc. reflexivity.
Qed.



End Pipeline.

(** What the pipeline returns, it assembled from an index and three
    classifier results that were all returned. *)
Lemma probe_returns_inv (data : document) r :
  probe_model_5l_profit data = Ok r →
  ∃ idx a b c,
    latest_financial_index data = Ok idx
    ∧ total_revenue_5cr_flag data idx = Ok a
    ∧ borrowing_to_revenue_flag data idx = Ok b
    ∧ iscr_flag data idx = Ok c
    ∧ r = <["flags" := flag_map a b c]> ∅.
Proof.
  unfold probe_model_5l_profit. intros H.
  apply bind_returns in H as (idx & Hidx & H).
  apply bind_returns in H as (a & Ha & H).
  apply bind_returns in H as (b & Hb & H).
  apply bind_returns in H as (c & Hc & H).
  injection H as <-. exists idx, a, b, c. auto.
Qed.

(** ** The calls of a run *)







(** ** What each call reads *)


Lemma latest_financial_index_footprint (data data' : document) :
  data !! "financials" = data' !! "financials" →
  latest_financial_index data = latest_financial_index data'.
Proof.
  intros H. unfold latest_financial_index.
  cbn [Py.get]. rewrite H. reflexivity.
Qed.







(** * Further properties of the period selector *)

Lemma first_standalone_sound items k i :
  first_standalone k items = Ok i →
  (∃ n e, i = k + Z.of_nat n ∧ items !! n = Some e
          ∧ is_standalone e = true ∧ Forall skipped (take n items))
  ∨ (i = 0 ∧ Forall skipped items).
Proof.
  revert k. induction items as [|e rest IH]; intros k.
  - simpl. intros [= <-]. right. split; [reflexivity | constructor].
  - cbn [first_standalone]. intros H.
    apply bind_returns in H as (n & Hget & H).
    destruct e as [| | | | | |d]; try discriminate.
    unfold Py.get in Hget.
    destruct (Py.eq_str n "STANDALONE") eqn:Hn.
    + injection H as <-. left. exists 0%nat, (VDict d).
      repeat split; [lia | | constructor].
      unfold is_standalone, field.
      destruct (d !! "nature") as [n'|]; injection Hget as <-;
        [exact Hn | discriminate].
    + assert (He : skipped (VDict d)).
      { split; [reflexivity|]. unfold is_standalone, field.
        destruct (d !! "nature") as [n'|]; injection Hget as <-;
          [exact Hn | reflexivity]. }
      destruct (IH _ H) as [(m & e' & -> & Hm & Hs & Hpre) | [-> Hall]].
      * left. exists (S m), e'. repeat split; try assumption; [lia|].
        cbn [take]. constructor; assumption.
      * right. split; [reflexivity|]. constructor; assumption.
Qed.

(** X1: when [financials] is a list whose entry at position [i] is a
    mapping of nature "STANDALONE" and every entry before it is a mapping
    of another nature (or none), [latest_financial_index] returns [i]. *)
Theorem selector_first_standalone (data : document) l i e :
  data !! "financials" = Some (VList l) →
  l !! i = Some e → is_standalone e = true →
  Forall skipped (take i l) →
  latest_financial_index data = Ok (Z.of_nat i).
Proof. apply latest_financial_index_first. Qed.

Lemma selector_first_standalone_witness :
  latest_financial_index Scenario.two_periods = Ok 1.
Proof.
  apply (selector_first_standalone Scenario.two_periods
           [Scenario.dict [("nature", VStr "CONSOLIDATED")];
            Scenario.period "STANDALONE" 60000000] 1
           (Scenario.period "STANDALONE" 60000000)).
  - vm_compute. reflexivity.
  - reflexivity.
  - vm_compute. reflexivity.
  - repeat constructor.
Defined.

(** X2: when [financials] is a list of mappings none of which has nature
    "STANDALONE", the empty list included, [latest_financial_index]
    returns the default 0. *)
Theorem selector_default_zero (data : document) l :
  data !! "financials" = Some (VList l) → Forall skipped l →
  latest_financial_index data = Ok 0.
Proof. apply latest_financial_index_default. Qed.

Lemma selector_default_zero_witness :
  latest_financial_index
    (Scenario.doc [("financials",
                    VList [Scenario.dict [("nature", VStr "CONSOLIDATED")]])])
  = Ok 0
  ∧ latest_financial_index (Scenario.doc [("financials", VList [])]) = Ok 0.
Proof.
  split.
  - apply (selector_default_zero _
             [Scenario.dict [("nature", VStr "CONSOLIDATED")]]).
    + vm_compute. reflexivity.
    + repeat constructor.
  - apply (selector_default_zero _ []).
    + vm_compute. reflexivity.
    + constructor.
Defined.

(** X3: an index returned by [latest_financial_index] is never negative;
    over a list it is the position of a STANDALONE entry with none before
    it, or it is 0 and the list has no STANDALONE entry at all.  So 0 is
    returned both for "entry 0 is STANDALONE" and for "none is". *)
Theorem selector_sound (data : document) i :
  latest_financial_index data = Ok i →
  0 ≤ i
  ∧ ∀ l, data !! "financials" = Some (VList l) →
         (∃ e, l !! Z.to_nat i = Some e ∧ is_standalone e = true
               ∧ Forall skipped (take (Z.to_nat i) l))
         ∨ (i = 0 ∧ Forall skipped l).
Proof.
  intros H. split; [apply (latest_financial_index_nonneg data), H|].
  intros l Hl. unfold latest_financial_index in H. revert H. py_run.
  cbn [Py.iter]. py_run. intros H.
  destruct (first_standalone_sound _ _ _ H)
    as [(n & e & -> & Hn & Hs & Hpre) | Hdef]; [left | right; exact Hdef].
  exists e. rewrite Z.add_0_l, Nat2Z.id. auto.
Qed.

Lemma selector_sound_witness :
  0 ≤ 1
  ∧ ∀ l, Scenario.two_periods !! "financials" = Some (VList l) →
         (∃ e, l !! Z.to_nat 1 = Some e ∧ is_standalone e = true
               ∧ Forall skipped (take (Z.to_nat 1) l))
         ∨ (1 = 0 ∧ Forall skipped l).
Proof.
  apply (selector_sound Scenario.two_periods 1).
  vm_compute. reflexivity.
Defined.

(** X4: when an entry that is not a mapping comes before any STANDALONE
    entry of the [financials] list, [latest_financial_index] raises
    AttributeError, whatever follows it. *)
Theorem selector_non_mapping_entry (data : document) pre e rest :
  data !! "financials" = Some (VList (pre ++ e :: rest)) →
  Forall skipped pre → is_dict e = false →
  latest_financial_index data = Raise AttributeError.
Proof.
  intros H Hpre He. unfold latest_financial_index. py_run.
  cbn [Py.iter]. py_run. rewrite (first_standalone_skip _ _ _ Hpre).
  destruct e; try discriminate; reflexivity.
Qed.

Lemma selector_non_mapping_entry_witness :
  latest_financial_index
    (Scenario.doc
       [("financials",
         VList [Scenario.dict [("nature", VStr "CONSOLIDATED")];
                VInt 7; Scenario.period "STANDALONE" 1])])
  = Raise AttributeError.
Proof.
  apply (selector_non_mapping_entry _
           [Scenario.dict [("nature", VStr "CONSOLIDATED")]] (VInt 7)
           [Scenario.period "STANDALONE" 1]).
  - vm_compute. reflexivity.
  - repeat constructor.
  - reflexivity.
Defined.


(** * Further properties of the borrowing ratio *)

(** X5: for an index in bounds of the list [bs] whose entry is a mapping
    with both borrowings, and a revenue that [total_revenue] returns,
    [total_borrowing] is the Python expression
    (sum(long) + sum(short)) / revenue behind its guard revenue != 0: the
    missing sentinel when the revenue equals zero, the value of the
    division otherwise.  For int borrowings and an int revenue other than
    zero it is the float nearest to the exact quotient, and an
    OverflowError when that float is not finite. *)
Theorem borrowing_ratio_in_bounds
  (data : document) (idx : Z) l entry long short r :
  data !! "bs" = Some (VList l) →
  0 ≤ idx → l !! Z.to_nat idx = Some (VDict entry) →
  entry !! "long_term_borrowings" = Some long →
  entry !! "short_term_borrowings" = Some short →
  total_revenue data idx = Ok r →
  total_borrowing data idx = borrowing_ratio long short r
  ∧ (∀ s1 s2, Py.sum long = Ok s1 → Py.sum short = Ok s2 →
       (Py.eq_int r 0 = true → total_borrowing data idx = Ok VNone)
       ∧ (Py.eq_int r 0 = false →
          total_borrowing data idx
          = (borrowings ← Py.add s1 s2; Py.truediv borrowings r)))
  ∧ (∀ ls ss z,
       long = VList (VInt <$> ls) → short = VList (VInt <$> ss) →
       r = VInt z →
       total_borrowing data idx =
         if z =? 0 then Ok VNone
         else if is_infinity (Py.int_quotient (total ls + total ss) z)
         then Raise OverflowError
         else Ok (VFloat (Py.int_quotient (total ls + total ss) z))).
Proof.
  intros Hbs H0 He Hl Hs Hr.
  rewrite (total_borrowing_ratio data idx _ _ _ _ _ Hbs H0 He Hl Hs Hr).
  split; [reflexivity|]. split.
  - intros s1 s2 H1 H2. unfold borrowing_ratio, guarded_quotient.
    rewrite H1, H2. py_run.
    split; intros ->; reflexivity.
  - intros ls ss z -> -> ->. unfold borrowing_ratio.
    rewrite !sum_ints. py_run. apply guarded_quotient_ints.
Qed.

Lemma borrowing_ratio_in_bounds_witness :
  total_borrowing Scenario.aligned 0 = Ok (VFloat 0.25)
  ∧ total_borrowing Scenario.third 0 = Ok (VFloat 0x1.5555555555555p-2)
  ∧ total_borrowing Scenario.beyond 0 = Raise OverflowError.
Proof.
  assert (H00 : 0 ≤ 0) by lia.
  split; [|split].
  - destruct (borrowing_ratio_in_bounds Scenario.aligned 0
                [Scenario.balance [10] [15]]
                (list_to_map [("long_term_borrowings", VList [VInt 10]);
                              ("short_term_borrowings", VList [VInt 15])])
                (VList [VInt 10]) (VList [VInt 15]) (VInt 100))
      as (_ & _ & H);
      [vm_compute; reflexivity | lia | vm_compute; reflexivity
      | vm_compute; reflexivity | vm_compute; reflexivity
      | vm_compute; reflexivity |].
    apply (H [10] [15] 100); reflexivity.
  - destruct (borrowing_ratio_in_bounds Scenario.third 0
                [Scenario.balance [4] [6]]
                (list_to_map [("long_term_borrowings", VList [VInt 4]);
                              ("short_term_borrowings", VList [VInt 6])])
                (VList [VInt 4]) (VList [VInt 6]) (VInt 30))
      as (_ & _ & H);
      [vm_compute; reflexivity | lia | vm_compute; reflexivity
      | vm_compute; reflexivity | vm_compute; reflexivity
      | vm_compute; reflexivity |].
    apply (H [4] [6] 30); reflexivity.
  - destruct (borrowing_ratio_in_bounds Scenario.beyond 0
                [Scenario.balance [10 ^ 308; 10 ^ 308] []]
                (list_to_map
                   [("long_term_borrowings",
                     VList [VInt (10 ^ 308); VInt (10 ^ 308)]);
                    ("short_term_borrowings", VList [])])
                (VList [VInt (10 ^ 308); VInt (10 ^ 308)]) (VList [])
                (VInt 1))
      as (_ & _ & H);
      [vm_compute; reflexivity | lia | vm_compute; reflexivity
      | vm_compute; reflexivity | vm_compute; reflexivity
      | vm_compute; reflexivity |].
    apply (H [10 ^ 308; 10 ^ 308] [] 1); reflexivity.
Defined.

(** X6: when [bs] is absent, is not a list, or has no more than [idx]
    entries, [total_borrowing] returns 0.0, for negative [idx] too when
    [bs] is absent or not a list. *)
Theorem borrowing_default_zero (data : document) (idx : Z) :
  (∀ l, data !! "bs" = Some (VList l) → Z.of_nat (length l) ≤ idx) →
  total_borrowing data idx = Ok (VFloat 0).
Proof. apply total_borrowing_default. Qed.

Lemma borrowing_default_zero_witness :
  total_borrowing Scenario.coverage (-3) = Ok (VFloat 0)
  ∧ total_borrowing Scenario.aligned 1 = Ok (VFloat 0).
Proof.
  split.
  - apply (borrowing_default_zero Scenario.coverage (-3)).
    intros l Hl. vm_compute in Hl. discriminate.
  - apply (borrowing_default_zero Scenario.aligned 1).
    intros l Hl. vm_compute in Hl. injection Hl as <-. simpl. lia.
Defined.

(** X7: whatever [total_borrowing] returns is a float or the missing
    sentinel, never an int; and the sentinel is returned only when the
    revenue of [total_revenue] compares equal to zero. *)
Theorem borrowing_outcome_range (data : document) (idx : Z) v :
  total_borrowing data idx = Ok v →
  (∃ q, v = VFloat q)
  ∨ (v = VNone
     ∧ ∃ r, total_revenue data idx = Ok r ∧ Py.eq_int r 0 = true).
Proof. apply total_borrowing_outcome. Qed.

Lemma borrowing_outcome_range_witness :
  (∃ q, VFloat 0.25 = VFloat q)
  ∨ (VFloat 0.25 = VNone
     ∧ ∃ r, total_revenue Scenario.aligned 0 = Ok r
            ∧ Py.eq_int r 0 = true).
Proof.
  apply (borrowing_outcome_range Scenario.aligned 0 (VFloat 0.25)).
  vm_compute. reflexivity.
Defined.

(** * Further properties of the borrowing-to-revenue flag *)

(** X8: when [total_revenue] is absent, is not a list, or has no more
    than [idx] entries, [borrowing_to_revenue_flag] returns AMBER without
    looking at [bs] or [financials]. *)
Theorem ratio_flag_default_amber (data : document) (idx : Z) :
  (∀ l, data !! "total_revenue" = Some (VList l) →
        Z.of_nat (length l) ≤ idx) →
  borrowing_to_revenue_flag data idx = Ok AMBER.
Proof. apply borrowing_to_revenue_flag_default. Qed.

Lemma ratio_flag_default_amber_witness :
  borrowing_to_revenue_flag Scenario.coverage 0 = Ok AMBER
  ∧ borrowing_to_revenue_flag Scenario.aligned 1 = Ok AMBER.
Proof.
  split.
  - apply (ratio_flag_default_amber Scenario.coverage 0).
    intros l Hl. vm_compute in Hl. discriminate.
  - apply (ratio_flag_default_amber Scenario.aligned 1).
    intros l Hl. vm_compute in Hl. injection Hl as <-. simpl. lia.
Defined.

(** X9: for an index in bounds of the list [total_revenue], a
    [total_borrowing] that returns, and a Python division of what it
    returns by the entry of [total_revenue] that returns the float [q],
    the flag is GREEN exactly when [q <= 0.25] holds of the floats and
    AMBER exactly when it does not. *)
Theorem ratio_flag_threshold (data : document) (idx : Z) l b r q :
  data !! "total_revenue" = Some (VList l) →
  0 ≤ idx → l !! Z.to_nat idx = Some r →
  total_borrowing data idx = Ok b →
  Py.truediv b r = Ok (VFloat q) →
  (borrowing_to_revenue_flag data idx = Ok GREEN
   ↔ (q <=? 0.25)%float = true)
  ∧ (borrowing_to_revenue_flag data idx = Ok AMBER
     ↔ (q <=? 0.25)%float = false).
Proof.
  intros Htr H0 Hr Hb Hq.
  assert (Hlt : idx < Z.of_nat (length l)).
  { apply lookup_lt_Some in Hr. lia. }
  rewrite (borrowing_to_revenue_flag_ratio data idx l b r q Htr
             (getitem_int_list _ _ _ H0 Hr) Hlt Hb Hq).
  destruct (q <=? 0.25)%float; split; split;
    intros H; try reflexivity; try discriminate.
Qed.

Lemma ratio_flag_threshold_witness :
  borrowing_to_revenue_flag Scenario.aligned 0 = Ok GREEN
  ∧ total_borrowing Scenario.quarter 0 = Ok (VFloat 0x1p+53)
  ∧ borrowing_to_revenue_flag Scenario.quarter 0 = Ok GREEN.
Proof.
  split; [|split].
  - apply (ratio_flag_threshold Scenario.aligned 0 [VInt 100]
             (VFloat 0.25) (VInt 100) 0x1.47ae147ae147bp-9%float);
      first [lia | vm_compute; reflexivity].
  - vm_compute. reflexivity.
  - apply (ratio_flag_threshold Scenario.quarter 0 [VInt (2 ^ 55 - 1)]
             (VFloat 0x1p+53) (VInt (2 ^ 55 - 1)) 0.25%float);
      first [lia | vm_compute; reflexivity].
Defined.

(** X10: the flag divides twice.  With int borrowings, an int revenue
    [z] from [financials] other than zero and an int entry [t] of
    [total_revenue] whose float is finite and not zero, the flag is GREEN
    exactly when the float quotient of the ratio of [total_borrowing],
    itself the float nearest to (long + short) / z, by the float of [t]
    is at most 0.25: the borrowings are divided by a revenue a second
    time, and each division is rounded. *)
Theorem ratio_flag_divides_twice
  (data : document) (idx : Z) l entry ls ss z tr t :
  data !! "bs" = Some (VList l) →
  0 ≤ idx → l !! Z.to_nat idx = Some (VDict entry) →
  entry !! "long_term_borrowings" = Some (VList (VInt <$> ls)) →
  entry !! "short_term_borrowings" = Some (VList (VInt <$> ss)) →
  total_revenue data idx = Ok (VInt z) → z ≠ 0 →
  is_infinity (Py.int_quotient (total ls + total ss) z) = false →
  data !! "total_revenue" = Some (VList tr) →
  tr !! Z.to_nat idx = Some (VInt t) →
  is_infinity (Py.float_of_int t) = false →
  (Py.float_of_int t =? 0)%float = false →
  borrowing_to_revenue_flag data idx
  = Ok (if (Py.int_quotient (total ls + total ss) z / Py.float_of_int t
            <=? 0.25)%float
        then GREEN else AMBER).
Proof.
  intros Hbs H0 He Hl Hs Hr Hz Hfin Htr Ht Htfin Htz.
  assert (Hb : total_borrowing data idx
               = Ok (VFloat (Py.int_quotient (total ls + total ss) z))).
  { rewrite (total_borrowing_ints data idx _ _ _ _ _ Hbs H0 He Hl Hs Hr),
      Hfin.
    destruct (Z.eqb_spec z 0); [contradiction | reflexivity]. }
  assert (Hlt : idx < Z.of_nat (length tr)).
  { apply lookup_lt_Some in Ht. lia. }
  apply (borrowing_to_revenue_flag_ratio data idx tr _ (VInt t) _ Htr
           (getitem_int_list _ _ _ H0 Ht) Hlt Hb).
  rewrite truediv_float_int, Htfin, Htz. reflexivity.
Qed.

Lemma ratio_flag_divides_twice_witness :
  borrowing_to_revenue_flag Scenario.aligned 0 = Ok GREEN
  ∧ borrowing_to_revenue_flag Scenario.hair 0 = Ok GREEN
  ∧ 10 ^ 17 * 1 < 4 * 25000000000000001.
Proof.
  split; [|split; [|lia]].
  - apply (ratio_flag_divides_twice Scenario.aligned 0
             [Scenario.balance [10] [15]]
             (list_to_map [("long_term_borrowings", VList [VInt 10]);
                           ("short_term_borrowings", VList [VInt 15])])
             [10] [15] 100 [VInt 100] 100);
      first [lia | vm_compute; reflexivity].
  - apply (ratio_flag_divides_twice Scenario.hair 0
             [Scenario.balance [25000000000000001] []]
             (list_to_map
                [("long_term_borrowings", VList [VInt 25000000000000001]);
                 ("short_term_borrowings", VList [])])
             [25000000000000001] [] (10 ^ 17) [VInt 1] 1);
      first [lia | vm_compute; reflexivity].
Defined.

(** * Further properties of the coverage flag *)

Lemma iscr_float (data : document) (idx : Z) v :
  iscr data idx = Ok v → ∃ q, v = VFloat q.
Proof.
  unfold iscr. intros H.
  apply bind_returns in H as (P & _ & H).
  apply bind_returns in H as (I & _ & H).
  apply bind_returns in H as (in_range & _ & H).
  destruct in_range; [|injection H as <-; eauto].
  apply bind_returns in H as (p & _ & H).
  apply bind_returns in H as (q & _ & H).
  apply bind_returns in H as (n & _ & H).
  apply bind_returns in H as (d & _ & H).
  apply (truediv_float _ _ _ H).
Qed.

Lemma SFcompare_refl_finite s m e :
  SFcompare (S754_finite s m e) (S754_finite s m e) = Some Eq.
Proof.
  cbn. destruct s; rewrite Z.compare_refl, Pos.compare_cont_refl; reflexivity.
Qed.

(** A float that is not finite is a NaN or an infinity. *)
Lemma not_finite_cases (v : float) :
  is_finite v = false →
  Prim2SF v = S754_nan ∨ ∃ s, Prim2SF v = S754_infinity s.
Proof.
  unfold is_finite, is_nan, is_infinity.
  rewrite !FloatAxioms.eqb_spec, FloatAxioms.abs_spec.
  destruct (Prim2SF v) as [s|s| |s m e] eqn:E; eauto.
  - destruct s; discriminate.
  - unfold SFeqb. rewrite SFcompare_refl_finite. cbn. discriminate.
Qed.

(** [x >= 2] for a float [x] is the float comparison, whether [x] is
    finite or not. *)
Lemma ge_two_float (v : float) :
  Py.ge (VFloat v) (VInt 2) = Ok (2 <=? v)%float.
Proof.
  rewrite ge_two. f_equal.
  destruct (is_finite v) eqn:F; [reflexivity|].
  apply not_finite_cases in F. rewrite !FloatAxioms.leb_spec.
  destruct F as [-> | [s ->]]; [reflexivity | destruct s; reflexivity].
Qed.

Lemma iscr_flag_of_float (data : document) (idx : Z) q :
  iscr data idx = Ok (VFloat q) →
  iscr_flag data idx = Ok (if (2 <=? q)%float then GREEN else RED).
Proof.
  intros H. unfold iscr_flag. rewrite H. py_run. rewrite ge_two_float.
  py_run. destruct (2 <=? q)%float; reflexivity.
Qed.

(** X11: for an index in bounds of both sequences whose entries have a
    Python quotient (profit + 1) / (interest + 1), the float [v],
    [iscr_flag] is GREEN exactly when [2 <= v] holds of the floats, and
    RED exactly when it does not. *)
Theorem coverage_flag_threshold (data : document) (idx : Z) P I p q v :
  series_of data "profit_before_interest_tax_deprec" = Some P →
  series_of data "interest_expenses" = Some I →
  0 ≤ idx → P !! Z.to_nat idx = Some p → I !! Z.to_nat idx = Some q →
  offset_quotient p q = Ok (VFloat v) →
  (iscr_flag data idx = Ok GREEN ↔ (2 <=? v)%float = true)
  ∧ (iscr_flag data idx = Ok RED ↔ (2 <=? v)%float = false).
Proof.
  intros HP HI H0 Hp Hq Hv.
  assert (Hi : iscr data idx = Ok (VFloat v)).
  { rewrite (iscr_in_range data idx P I p q HP HI H0 Hp Hq). exact Hv. }
  rewrite (iscr_flag_of_float _ _ _ Hi).
  destruct (2 <=? v)%float; split; split;
    intros H; try reflexivity; try discriminate.
Qed.

Lemma coverage_flag_threshold_witness :
  iscr_flag Scenario.coverage 0 = Ok GREEN
  ∧ iscr_flag Scenario.coverage_large 0 = Ok GREEN
  ∧ 2 * (10 ^ 17 + 1) > 2 * 10 ^ 17 + 1.
Proof.
  split; [|split; [|lia]].
  - apply (coverage_flag_threshold Scenario.coverage 0 [VInt 9] [VInt 4]
             (VInt 9) (VInt 4) 2%float);
      first [lia | vm_compute; reflexivity].
  - apply (coverage_flag_threshold Scenario.coverage_large 0
             [VInt (2 * 10 ^ 17)] [VInt (10 ^ 17)]
             (VInt (2 * 10 ^ 17)) (VInt (10 ^ 17)) 2%float);
      first [lia | vm_compute; reflexivity].
Defined.

(** X12: for an index that is negative or not below the length of the
    shorter of the two sequences, an absent sequence counting as empty,
    [iscr_flag] returns RED: the default 0.0 of [iscr] is below 2. *)
Theorem coverage_flag_default_red (data : document) (idx : Z) P I :
  series_of data "profit_before_interest_tax_deprec" = Some P →
  series_of data "interest_expenses" = Some I →
  idx < 0 ∨ Z.min (Z.of_nat (length P)) (Z.of_nat (length I)) ≤ idx →
  iscr_flag data idx = Ok RED.
Proof.
  intros HP HI Hout.
  rewrite (iscr_flag_of_float _ _ _
             (iscr_out_of_range data idx P I HP HI Hout)).
  reflexivity.
Qed.

Lemma coverage_flag_default_red_witness :
  iscr_flag Scenario.coverage 1 = Ok RED
  ∧ iscr_flag Scenario.empty 0 = Ok RED.
Proof.
  split.
  - apply (coverage_flag_default_red Scenario.coverage 1 [VInt 9] [VInt 4]);
      [vm_compute; reflexivity | vm_compute; reflexivity | right; simpl; lia].
  - apply (coverage_flag_default_red Scenario.empty 0 [] []);
      [vm_compute; reflexivity | vm_compute; reflexivity | right; simpl; lia].
Defined.

(** X13: [iscr_flag] adds no failure of its own: it returns whenever
    [iscr] returns, and raises exactly the exception [iscr] raises. *)
Theorem coverage_flag_follows (data : document) (idx : Z) :
  (returns (iscr data idx) ↔ returns (iscr_flag data idx))
  ∧ ∀ e, iscr data idx = Raise e ↔ iscr_flag data idx = Raise e.
Proof.
  destruct (iscr data idx) as [v|e0] eqn:H.
  - destruct (iscr_float _ _ _ H) as [q ->].
    rewrite (iscr_flag_of_float _ _ _ H). split.
    + split; intros _; eexists; reflexivity.
    + intros e. split; discriminate.
  - assert (Hf : iscr_flag data idx = Raise e0).
    { unfold iscr_flag. rewrite H. reflexivity. }
    rewrite Hf. split.
    + split; intros [v Hv]; discriminate.
    + intros e. split; intros [= ->]; reflexivity.
Qed.

(** * Further properties of the pipeline *)

(** X14: a mapping returned by [probe_model_5l_profit] has the one key
    "flags", under it exactly the three flag names, and the values
    GREEN or RED for the revenue flag, GREEN or AMBER for the borrowing
    flag, GREEN or RED for the coverage flag. *)
Theorem pipeline_result_range (data : document) r :
  probe_model_5l_profit data = Ok r →
  ∃ a b c,
    r = <["flags" := flag_map a b c]> ∅
    ∧ (a = GREEN ∨ a = RED) ∧ (b = GREEN ∨ b = AMBER)
    ∧ (c = GREEN ∨ c = RED).
Proof.
  intros H.
  apply probe_returns_inv in H as (idx & a & b & c & _ & Ha & Hb & Hc & ->).
  exists a, b, c. split; [reflexivity|].
  split; [apply (total_revenue_5cr_flag_range _ _ _ Ha)|].
  split; [apply (borrowing_to_revenue_flag_range _ _ _ Hb)|].
  apply (iscr_flag_range _ _ _ Hc).
Qed.

Lemma pipeline_result_range_witness :
  ∃ a b c,
    <["flags" := flag_map RED GREEN GREEN]> ∅
    = <["flags" := flag_map a b c]> (∅ : flag_result)
    ∧ (a = GREEN ∨ a = RED) ∧ (b = GREEN ∨ b = AMBER)
    ∧ (c = GREEN ∨ c = RED).
Proof.
  apply (pipeline_result_range Scenario.aligned).
  vm_compute. reflexivity.
Defined.

(** X15: on a document that has a shaped, present [financials], no
    [total_revenue] and no [interest_expenses], the pipeline returns, the
    borrowing flag is the default AMBER, the coverage flag is the default
    RED, and the revenue flag is the one of the selected period. *)
Theorem pipeline_defaults (data : document) P :
  opt_all financials_ok (data !! "financials") = true →
  is_Some (data !! "financials") →
  data !! "total_revenue" = None →
  series_of data "profit_before_interest_tax_deprec" = Some P →
  data !! "interest_expenses" = None →
  ∃ idx f,
    latest_financial_index data = Ok idx
    ∧ total_revenue_5cr_flag data idx = Ok f
    ∧ probe_model_5l_profit data
      = Ok (<["flags" := flag_map f AMBER RED]> ∅).
Proof.
  intros Hok Hfin Htr HP HI.
  destruct (latest_financial_index_returns data Hok Hfin) as [idx Hidx].
  destruct (total_revenue_5cr_flag_returns data idx Hok) as [f Hf].
  exists idx, f. split; [exact Hidx|]. split; [exact Hf|].
  apply (probe_returns data idx); try assumption.
  - apply borrowing_to_revenue_flag_default. intros l Hl.
    rewrite Htr in Hl. discriminate.
  - assert (HI' : series_of data "interest_expenses" = Some []).
    { unfold series_of. rewrite HI. reflexivity. }
    assert (Hout : idx < 0
                   ∨ Z.min (Z.of_nat (length P))
                       (Z.of_nat (length (@nil value))) ≤ idx).
    { right. pose proof (latest_financial_index_nonneg _ _ Hidx).
      simpl length. lia. }
    rewrite (iscr_flag_of_float _ _ _
               (iscr_out_of_range data idx P [] HP HI' Hout)).
    reflexivity.
Qed.

Lemma pipeline_defaults_witness :
  ∃ idx f,
    latest_financial_index Scenario.two_periods = Ok idx
    ∧ total_revenue_5cr_flag Scenario.two_periods idx = Ok f
    ∧ probe_model_5l_profit Scenario.two_periods
      = Ok (<["flags" := flag_map f AMBER RED]> ∅).
Proof.
  apply (pipeline_defaults Scenario.two_periods []);
    first [vm_compute; reflexivity | vm_compute; eauto].
Defined.

(** * The page: one run of [main] *)

Lemma initialize_session_state_results (st : session_state) :
  initialize_session_state st !! "results"
  = Some (default SNone (st !! "results")).
Proof.
  unfold initialize_session_state. case_bool_decide as H.
  - destruct H as [s Hs]. rewrite Hs. reflexivity.
  - apply eq_None_not_Some in H. rewrite H, lookup_insert_eq. reflexivity.
Qed.

Lemma initialize_session_state_other (st : session_state) k :
  k ≠ "results" → initialize_session_state st !! k = st !! k.
Proof.
  intros Hk. unfold initialize_session_state. case_bool_decide; [reflexivity|].
  apply lookup_insert_ne. congruence.
Qed.

Lemma initialize_session_state_present (st : session_state) s :
  st !! "results" = Some s → initialize_session_state st = st.
Proof.
  intros Hs. unfold initialize_session_state.
  rewrite bool_decide_eq_true_2; [reflexivity | rewrite Hs; eauto].
Qed.

Lemma probe_result_truthy (data : document) r :
  probe_model_5l_profit data = Ok r → truthy (SResults r) = true.
Proof.
  intros H. apply probe_returns_inv in H as (idx & a & b & c & _ & _ & _ & _ & ->).
  cbn [truthy]. rewrite bool_decide_eq_false_2; [reflexivity|].
  apply insert_non_empty.
Qed.

(** X16: when the uploaded JSON is an object whose "data" is an object on
    which the pipeline returns [r], a run of [main] shows the progress
    line, the completion line and [r], stores [r] under "results" in
    place of whatever was there, leaves every other session key alone,
    and raises nothing. *)
Theorem upload_stores_and_shows (upload : value) (st : session_state) d r :
  Py.getitem_str upload "data" = Ok (VDict d) →
  probe_model_5l_profit d = Ok r →
  shown (main (Some upload) st)
  = [StTitle "Financial Analysis Web App";
     StFileUploader "Upload data.json";
     StWrite "Calculating results...";
     StSuccess "Calculation completed!";
     StSubheader "Results:"; StJson r]
  ∧ raised (main (Some upload) st) = None
  ∧ session (main (Some upload) st) !! "results" = Some (SResults r)
  ∧ ∀ k, k ≠ "results" → session (main (Some upload) st) !! k = st !! k.
Proof.
  intros Hdata Hr. unfold main. rewrite Hdata, bind_Ok. cbn [probe_value].
  rewrite Hr. unfold show_results. rewrite lookup_insert_eq.
  rewrite (probe_result_truthy _ _ Hr). cbn [shown raised session].
  repeat split.
  - apply lookup_insert_eq.
  - intros k Hk. rewrite lookup_insert_ne by congruence.
    apply initialize_session_state_other, Hk.
Qed.

Lemma upload_stores_and_shows_witness :
  raised (main (Some (Scenario.dict [("data", VDict Scenario.aligned)])) ∅)
  = None
  ∧ session (main (Some (Scenario.dict [("data", VDict Scenario.aligned)])) ∅)
    !! "results"
    = Some (SResults (<["flags" := flag_map RED GREEN GREEN]> ∅)).
Proof.
  destruct (upload_stores_and_shows
              (Scenario.dict [("data", VDict Scenario.aligned)]) ∅
              Scenario.aligned (<["flags" := flag_map RED GREEN GREEN]> ∅))
    as (_ & Hraised & Hstored & _);
    [vm_compute; reflexivity | vm_compute; reflexivity |].
  split; assumption.
Defined.

(** X17: results persist across reruns.  After a run that evaluated an
    upload to [r], a further run without an upload shows [r] again,
    without the progress and completion lines, and leaves the session as
    it was. *)
Theorem results_persist_across_reruns
  (upload : value) (st : session_state) d r :
  Py.getitem_str upload "data" = Ok (VDict d) →
  probe_model_5l_profit d = Ok r →
  let st' := session (main (Some upload) st) in
  main None st'
  = Page [StTitle "Financial Analysis Web App";
          StFileUploader "Upload data.json";
          StSubheader "Results:"; StJson r] st' None.
Proof.
  intros Hdata Hr st'.
  assert (Hst' : st' !! "results" = Some (SResults r)).
  { subst st'. unfold main. rewrite Hdata, bind_Ok. cbn [probe_value].
    rewrite Hr. unfold show_results. rewrite lookup_insert_eq.
    rewrite (probe_result_truthy _ _ Hr). cbn [session].
    apply lookup_insert_eq. }
  unfold main. rewrite (initialize_session_state_present _ _ Hst').
  unfold show_results. rewrite Hst', (probe_result_truthy _ _ Hr).
  reflexivity.
Qed.

Lemma results_persist_across_reruns_witness :
  let st' :=
    session (main (Some (Scenario.dict [("data", VDict Scenario.aligned)])) ∅)
  in
  main None st'
  = Page [StTitle "Financial Analysis Web App";
          StFileUploader "Upload data.json";
          StSubheader "Results:";
          StJson (<["flags" := flag_map RED GREEN GREEN]> ∅)] st' None.
Proof.
  apply (results_persist_across_reruns
           (Scenario.dict [("data", VDict Scenario.aligned)]) ∅
           Scenario.aligned);
    vm_compute; reflexivity.
Defined.

(** X18: when reading "data" from the upload or evaluating it raises,
    the run of [main] ends with that exception after the progress line:
    no completion line and no results are shown, and the session keeps
    what it held, so results of an earlier upload stay stored. *)
Theorem failed_upload_keeps_session (upload : value) (st : session_state) e :
  (inner ← Py.getitem_str upload "data"; probe_value inner) = Raise e →
  main (Some upload) st
  = Page [StTitle "Financial Analysis Web App";
          StFileUploader "Upload data.json";
          StWrite "Calculating results..."]
         (initialize_session_state st) (Some e)
  ∧ ∀ s, st !! "results" = Some s →
         session (main (Some upload) st) = st.
Proof.
  intros H. unfold main. rewrite H. split; [reflexivity|].
  intros s Hs. cbn [session]. apply (initialize_session_state_present _ _ Hs).
Qed.

Lemma failed_upload_keeps_session_witness :
  raised (main (Some (Scenario.dict [("data", VDict Scenario.empty)])) ∅)
  = Some TypeError.
Proof.
  destruct (failed_upload_keeps_session
              (Scenario.dict [("data", VDict Scenario.empty)]) ∅ TypeError)
    as [H _]; [vm_compute; reflexivity|].
  rewrite H. reflexivity.
Defined.

(** X19: an upload of the wrong shape is not caught.  JSON that is not an
    object ends the run with TypeError, an object without "data" with
    KeyError, and a "data" that is not an object with AttributeError. *)
Theorem malformed_upload (upload : value) (st : session_state) :
  (is_dict upload = false →
   raised (main (Some upload) st) = Some TypeError)
  ∧ (∀ m, upload = VDict m → m !! "data" = None →
          raised (main (Some upload) st) = Some KeyError)
  ∧ (∀ m v, upload = VDict m → m !! "data" = Some v → is_dict v = false →
            raised (main (Some upload) st) = Some AttributeError).
Proof.
  unfold main. repeat split.
  - intros H. destruct upload; try discriminate; reflexivity.
  - intros m -> Hm. cbn [Py.getitem_str]. rewrite Hm. reflexivity.
  - intros m v -> Hm Hv. cbn [Py.getitem_str]. rewrite Hm, bind_Ok.
    destruct v; try discriminate; reflexivity.
Qed.

Lemma malformed_upload_witness :
  raised (main (Some (VList [])) ∅) = Some TypeError
  ∧ raised (main (Some (VDict ∅)) ∅) = Some KeyError
  ∧ raised (main (Some (Scenario.dict [("data", VInt 1)])) ∅)
    = Some AttributeError.
Proof.
  split; [|split].
  - apply (proj1 (malformed_upload (VList []) ∅)). reflexivity.
  - apply (proj1 (proj2 (malformed_upload (VDict ∅) ∅)) ∅); reflexivity.
  - apply (proj2 (proj2 (malformed_upload
                           (Scenario.dict [("data", VInt 1)]) ∅))
             (list_to_map [("data", VInt 1)]) (VInt 1));
      first [reflexivity | vm_compute; reflexivity].
Defined.
